(** * jirre: the ticket store, the listing query builder and the handlers

    A shallow embedding of [src/jirre/main.py].  The SQLite connection is an
    explicit state: the [ticket] table as the list of its rows in rowid
    order, next to the full-text index that the two triggers of [setup_db]
    keep up to date.  Every database operation of the program is one
    statement run inside [with conn:], so it is modelled as one atomic step
    of a state-and-exception monad.

    What stands outside the program is taken as given:
    - the columns hold what the signatures of the program put in them,
      [str] for the text columns and the adapter's [int] for the two
      timestamps, with NULL where the program writes [None];
    - the FTS5 engine is an interface ([Fts5]): what [MATCH] finds is left
      to it, but the token totals it keeps are followed, because the
      DELETE of the trigger [update_ticket] aborts the UPDATE on them;
    - how rich reads a text as markup is an interface too ([RichMarkup]);
    - [timestamp()] is taken exact and [fromtimestamp] total, which they
      are for the instants from 1970 to 2514 ([0 <= posix_us < 2 ^ 34 *
      10 ^ 6]): beyond, the float of [timestamp()] can round up to the next
      second, and past the year 9999 [fromtimestamp] raises; a naive
      datetime stands for its instant, not for its wall clock reading;
    - a rowid is given as SQLite gives it while the largest in use is
      below [2 ^ 63 - 1];
    - the local zone of the process is a parameter ([LocalZone]), used only
      to print a naive datetime.
    The search for the configuration file is modelled on a file system
    given as the set of its entries; reading and parsing that file,
    argument parsing, [setup_db] and [sync] are not modelled. *)

From Stdlib Require Import ZArith List String Ascii Bool Lia Sorted.
From Stdlib Require Import DecimalString.
Import ListNotations.

Local Open Scope string_scope.
Local Open Scope Z_scope.

(** ** Python values used by the program *)

(** Truthiness of [str]: only the empty string is false. *)
Definition str_truthy (s : string) : bool :=
  match s with
  | EmptyString => false
  | String _ _ => true
  end.

(** Truthiness of [str | None]: [None] and [""] are false. *)
Definition truthy (v : option string) : bool :=
  match v with
  | None => false
  | Some s => str_truthy s
  end.

(** [a or b] on strings, the left operand possibly [None]. *)
Definition or_else (a : option string) (b : string) : string :=
  match a with
  | Some s => if str_truthy s then s else b
  | None => b
  end.

(** [f"{n}"] for an [int]. *)
Definition format_int (n : Z) : string := NilZero.string_of_int (Z.to_int n).

(** ** datetime

    A [datetime.datetime] is the instant it denotes, counted in microseconds
    from the POSIX epoch, together with the flag telling whether it carries
    a [tzinfo] (the program only ever attaches [datetime.UTC]).  A naive
    value is read on the local clock of the process. *)
Record datetime : Type := mk_datetime {
  posix_us : Z;
  tz_aware : bool
}.

(** [val.timestamp()], as an exact count of microseconds.  Python returns
    the float [posix_us / 10**6]; the quotient is taken exactly here. *)
Definition timestamp_us (val : datetime) : Z := posix_us val.

(** [int(val.timestamp())]: [int] truncates towards zero. *)
Definition adapt_datetime_epoch (val : datetime) : Z :=
  Z.quot (timestamp_us val) 1000000.

(** [datetime.datetime.fromtimestamp(t)] for an [int] [t]: the naive local
    datetime of that instant. *)
Definition fromtimestamp (t : Z) : datetime :=
  {| posix_us := t * 1000000; tz_aware := false |}.

(** Zero-padded decimal rendering ([%02d], [%04d], [%06d]) of a
    non-negative number. *)
Fixpoint pad_left (fuel width : nat) (s : string) : string :=
  match fuel with
  | O => s
  | S fuel' =>
      if Nat.ltb (String.length s) width
      then pad_left fuel' width ("0" ++ s)
      else s
  end.

Definition zfill (width : nat) (n : Z) : string :=
  pad_left width width (NilZero.string_of_uint (N.to_uint (Z.to_N n))).

(** Proleptic Gregorian date (year, month, day) of a day number counted
    from 1970-01-01. *)
Definition civil_from_days (days : Z) : Z * Z * Z :=
  let z := days + 719468 in
  let era := z / 146097 in
  let doe := z - era * 146097 in
  let yoe := (doe - doe / 1460 + doe / 36524 - doe / 146096) / 365 in
  let doy := doe - (365 * yoe + yoe / 4 - yoe / 100) in
  let mp := (5 * doy + 2) / 153 in
  let d := doy - (153 * mp + 2) / 5 + 1 in
  let m := if mp <? 10 then mp + 3 else mp - 9 in
  let y := yoe + era * 400 + (if m <=? 2 then 1 else 0) in
  (y, m, d).

(** The local zone of the process: its offset from UTC, in seconds, at a
    POSIX time. *)
Class LocalZone : Type := { local_utcoffset : Z -> Z }.

(** [val.isoformat()]: [YYYY-MM-DDTHH:MM:SS], then [.ffffff] when the
    microsecond is not zero, then [+00:00] for a value in UTC. *)
Definition isoformat {zone : LocalZone} (val : datetime) : string :=
  let secs := posix_us val / 1000000 in
  let micro := posix_us val mod 1000000 in
  let wall := if tz_aware val then secs else secs + local_utcoffset secs in
  let '(y, m, d) := civil_from_days (wall / 86400) in
  let sod := wall mod 86400 in
  zfill 4 y ++ "-" ++ zfill 2 m ++ "-" ++ zfill 2 d ++ "T"
    ++ zfill 2 (sod / 3600) ++ ":" ++ zfill 2 (sod mod 3600 / 60) ++ ":"
    ++ zfill 2 (sod mod 60)
    ++ (if micro =? 0 then "" else "." ++ zfill 6 micro)
    ++ (if tz_aware val then "+00:00" else "").

(** ** Rows and tickets *)

(** The three statuses, class attributes of [Ticket]. *)
Definition TODO : string := "TODO".
Definition DOING : string := "DOING".
Definition DONE : string := "DONE".

(** A row of the [ticket] table with its rowid: what [dict(zip(headers,
    row))] holds in [row_factory], a value per column name.  [None] is SQL
    NULL; the timestamps are the integers written by the adapter. *)
Record raw_row : Type := mk_raw_row {
  raw_rowid : Z;
  raw_name : string;
  raw_description : string;
  raw_project : string;
  raw_status : string;
  raw_assigned_to : option string;
  raw_notes : string;
  raw_created_by : string;
  raw_updated_by : option string;
  raw_created_at : Z;
  raw_updated_at : option Z
}.

(** What the attribute [updated_at] of a [Ticket] can hold: [None], a
    [datetime], or the integer [0] that the truthiness test of
    [row_factory] leaves undecoded. *)
Inductive updated_at_value : Type :=
| UpdatedNone
| UpdatedZero
| UpdatedAt (d : datetime).

(** The dataclass [Ticket]. *)
Record Ticket : Type := mk_Ticket {
  rowid : Z;
  name : string;
  description : string;
  project : string;
  status : string;
  assigned_to : option string;
  notes : string;
  created_by : string;
  updated_by : option string;
  created_at : datetime;
  updated_at : updated_at_value
}.

(** [Ticket.row_factory]: the columns are read by name, [created_at] is
    always decoded, [updated_at] only when it is truthy. *)
Definition row_factory (raw_data : raw_row) : Ticket :=
  let created_at := fromtimestamp (raw_created_at raw_data) in
  let updated_at :=
    match raw_updated_at raw_data with
    | None => UpdatedNone
    | Some t => if t =? 0 then UpdatedZero else UpdatedAt (fromtimestamp t)
    end in
  {| rowid := raw_rowid raw_data;
     name := raw_name raw_data;
     description := raw_description raw_data;
     project := raw_project raw_data;
     status := raw_status raw_data;
     assigned_to := raw_assigned_to raw_data;
     notes := raw_notes raw_data;
     created_by := raw_created_by raw_data;
     updated_by := raw_updated_by raw_data;
     created_at := created_at;
     updated_at := updated_at |}.

(** ** The full-text index

    The table [ticket_fts] is tokenized with ['porter ascii']: a token is a
    maximal run of ASCII letters and digits and of bytes above 127.
    Stemming changes the tokens, not their number. *)
Definition token_char (c : ascii) : bool :=
  let n := nat_of_ascii c in
  (Nat.leb 48 n && Nat.leb n 57)
  || (Nat.leb 65 n && Nat.leb n 90)
  || (Nat.leb 97 n && Nat.leb n 122)
  || Nat.leb 128 n.

Fixpoint count_tokens (inside : bool) (s : string) : nat :=
  match s with
  | EmptyString => O
  | String c s' =>
      if token_char c
      then if inside then count_tokens true s' else S (count_tokens true s')
      else count_tokens false s'
  end.

Definition token_count (s : string) : nat := count_tokens false s.

(** The tokens of a column value: NULL has none. *)
Definition tokens_of (v : option string) : nat :=
  match v with
  | Some s => token_count s
  | None => O
  end.

(** ** The connection

    The full-text engine of SQLite is outside the program: it is taken as an
    interface.  The index is an abstract value; the triggers [insert_ticket]
    and [update_ticket] of [setup_db] hand it the new row, and [MATCH]
    answers with the rowids it finds, in its own order, or rejects the
    expression with a message.

    One thing the index keeps decides whether an UPDATE goes through: for
    each column, the total of the tokens it was given.  [ticket_fts] takes
    its content from [ticket], so the DELETE of [update_ticket], which runs
    after the UPDATE, reads the new row, takes the tokens of the new values
    out of the totals and aborts when a total would fall below zero; the
    INSERT that follows puts the same tokens back.  An UPDATE that goes
    through therefore leaves every total as it was, and a total only grows
    with the rows inserted.  The total of [assigned_to] is read from the
    index; the others need not be (see [update_ticket_aborts]). *)
Class Fts5 : Type := {
  fts_index : Type;
  fts_insert : raw_row -> fts_index -> fts_index;
  fts_delete_insert : raw_row -> fts_index -> fts_index;
  fts_match : string -> fts_index -> option (list Z);
  fts_match_error : string -> fts_index -> string;
  fts_assigned_to_total : fts_index -> nat;
  fts_insert_total :
    forall (r : raw_row) (index : fts_index),
      fts_assigned_to_total (fts_insert r index)
      = (fts_assigned_to_total index + tokens_of (raw_assigned_to r))%nat;
  fts_delete_insert_total :
    forall (r : raw_row) (index : fts_index),
      (tokens_of (raw_assigned_to r) <= fts_assigned_to_total index)%nat ->
      fts_assigned_to_total (fts_delete_insert r index)
      = fts_assigned_to_total index
}.

(** How rich reads a text as console markup when it prints a table: it
    renders it, or raises [MarkupError] with a message. *)
Class RichMarkup : Type := {
  markup_error : string -> option string
}.

(** Exceptions the modelled code can raise. *)
Inductive exception : Type :=
| AttributeError (type_name attribute : string)
| OperationalError (message : string)
| ProgrammingError (message : string)
| DatabaseError (message : string)
| MarkupError (message : string).

Inductive result (A : Type) : Type :=
| Ok (value : A)
| Raise (e : exception).
Arguments Ok {A} value.
Arguments Raise {A} e.

(** A [dict[str, str]]: keys in insertion order, assignment replaces. *)
Definition dict : Type := list (string * string).

Fixpoint dict_set (key value : string) (d : dict) : dict :=
  match d with
  | [] => [(key, value)]
  | (k, v) :: d' =>
      if String.eqb k key then (key, value) :: d'
      else (k, v) :: dict_set key value d'
  end.

Fixpoint dict_get (key : string) (d : dict) : option string :=
  match d with
  | [] => None
  | (k, v) :: d' => if String.eqb k key then Some v else dict_get key d'
  end.

(** [d.get(key, default)]. *)
Definition dict_get_default (key default : string) (d : dict) : string :=
  match dict_get key d with
  | Some v => v
  | None => default
  end.

Section Store.

Context {engine : Fts5} {zone : LocalZone} {rich : RichMarkup}.

Record Connection : Type := mk_Connection {
  ticket : list raw_row;
  ticket_fts : fts_index
}.

(** A computation on the connection that returns or raises. *)
Definition M (A : Type) : Type := Connection -> result A * Connection.

Definition ret {A : Type} (a : A) : M A := fun conn => (Ok a, conn).

Definition raise {A : Type} (e : exception) : M A :=
  fun conn => (Raise e, conn).

Definition bind {A B : Type} (m : M A) (k : A -> M B) : M B :=
  fun conn =>
    match m conn with
    | (Ok a, conn') => k a conn'
    | (Raise e, conn') => (Raise e, conn')
    end.

Notation "x <- m ;; k" := (bind m (fun x => k))
  (at level 61, m at next level, right associativity).

(** Calling a method on what may be [None]. *)
Definition call_method {A : Type} (obj : option Ticket) (attribute : string)
    (method : Ticket -> M A) : M A :=
  match obj with
  | Some self => method self
  | None => raise (AttributeError "NoneType" attribute)
  end.

(** *** Single-ticket statements *)

(** [WHERE rowid = :rowid]. *)
Definition has_rowid (id : Z) (r : raw_row) : bool := raw_rowid r =? id.

(** [cursor.fetchone()] through the row factory. *)
Definition fetchone (rows : list raw_row) : option Ticket :=
  option_map row_factory (hd_error rows).

(** [Ticket.get]. *)
Definition get (rowid : Z) : M (option Ticket) :=
  fun conn => (Ok (fetchone (filter (has_rowid rowid) (ticket conn))), conn).

(** The rowid SQLite gives to an inserted row: one more than the largest
    in use, 1 in an empty table.  (When the largest in use is [2 ^ 63 - 1]
    SQLite draws an unused rowid at random; that is not modelled.) *)
Definition next_rowid (rows : list raw_row) : Z :=
  match rows with
  | [] => 1
  | r :: rows' =>
      1 + fold_left (fun m r' => Z.max m (raw_rowid r')) rows' (raw_rowid r)
  end.

(** [Ticket.new]: the INSERT, its trigger, and the returned row.  The
    columns the statement does not list take their defaults: [notes] is
    the empty string, [updated_by] and [updated_at] are NULL. *)
Definition new (name description project : string)
    (assigned_to : option string) (created_by : string)
    (current_datetime : datetime) : M (option Ticket) :=
  fun conn =>
    let row :=
      {| raw_rowid := next_rowid (ticket conn);
         raw_name := name;
         raw_description := description;
         raw_project := project;
         raw_status := TODO;
         raw_assigned_to := assigned_to;
         raw_notes := "";
         raw_created_by := created_by;
         raw_updated_by := None;
         raw_created_at := adapt_datetime_epoch current_datetime;
         raw_updated_at := None |} in
    (Ok (fetchone [row]),
     {| ticket := ticket conn ++ [row];
        ticket_fts := fts_insert row (ticket_fts conn) |}).

(** Whether the DELETE of [update_ticket] aborts on a rewritten row: it
    does when the new status has more tokens than the index holds in its
    status column, or the new assignee more than it holds in
    [assigned_to].  Every row was inserted with the one token of [TODO] as
    its status and no row is ever deleted, so the status column holds as
    many tokens as the table has rows.  The columns that no UPDATE
    writes hold at least the tokens of the row itself, and cannot abort. *)
Definition update_ticket_aborts (conn : Connection) (new_row : raw_row)
    : bool :=
  Nat.ltb (List.length (ticket conn)) (token_count (raw_status new_row))
  || Nat.ltb (fts_assigned_to_total (ticket_fts conn))
       (tokens_of (raw_assigned_to new_row)).

(** [UPDATE ticket SET ... WHERE rowid = :rowid RETURNING ...]: every
    row with that rowid is rewritten, the trigger runs for each, and the
    rewritten rows are the result set.  When the trigger aborts, SQLite
    reports a corrupt index ([sqlite3.DatabaseError]) and [with conn:]
    rolls the statement back. *)
Definition execute_update (id : Z) (set : raw_row -> raw_row)
    : M (option Ticket) :=
  fun conn =>
    let returning := map set (filter (has_rowid id) (ticket conn)) in
    if existsb (update_ticket_aborts conn) returning
    then (Raise (DatabaseError "database disk image is malformed"), conn)
    else
      (Ok (fetchone returning),
       {| ticket :=
            map (fun r => if has_rowid id r then set r else r) (ticket conn);
          ticket_fts :=
            fold_left (fun index r => fts_delete_insert r index) returning
              (ticket_fts conn) |}).

(** [Ticket.assign_to]. *)
Definition assign_to (self : Ticket) (status : string)
    (assigned_to : option string) (updated_by : string)
    (current_datetime : datetime) : M (option Ticket) :=
  execute_update (rowid self) (fun r =>
    {| raw_rowid := raw_rowid r;
       raw_name := raw_name r;
       raw_description := raw_description r;
       raw_project := raw_project r;
       raw_status := status;
       raw_assigned_to := assigned_to;
       raw_notes := raw_notes r;
       raw_created_by := raw_created_by r;
       raw_updated_by := Some updated_by;
       raw_created_at := raw_created_at r;
       raw_updated_at := Some (adapt_datetime_epoch current_datetime) |}).

(** [Ticket.mark_as_done]. *)
Definition mark_as_done (self : Ticket) (notes updated_by : string)
    (current_datetime : datetime) : M (option Ticket) :=
  execute_update (rowid self) (fun r =>
    {| raw_rowid := raw_rowid r;
       raw_name := raw_name r;
       raw_description := raw_description r;
       raw_project := raw_project r;
       raw_status := DONE;
       raw_assigned_to := None;
       raw_notes := notes;
       raw_created_by := raw_created_by r;
       raw_updated_by := Some updated_by;
       raw_created_at := raw_created_at r;
       raw_updated_at := Some (adapt_datetime_epoch current_datetime) |}).

(** *** Serialization *)

(** A JSON object: [None] is the JSON [null]. *)
Definition json_object : Type := list (string * option string).

(** [Ticket.asdict]. *)
Definition asdict (self : Ticket) : json_object :=
  let assigned_to :=
    match assigned_to self with
    | Some v => if str_truthy v then v else ""
    | None => ""
    end in
  let updated_at :=
    match updated_at self with
    | UpdatedAt d => isoformat d
    | UpdatedNone | UpdatedZero => ""
    end in
  let project :=
    if str_truthy (project self) then project self else "" in
  [ ("rowid", Some (format_int (rowid self)));
    ("name", Some (name self));
    ("description", Some (description self));
    ("project", Some project);
    ("status", Some (status self));
    ("assigned_to", Some assigned_to);
    ("notes", Some (notes self));
    ("created_by", Some (created_by self));
    ("updated_by", updated_by self);
    ("created_at", Some (isoformat (created_at self)));
    ("updated_at", Some updated_at) ].

(** A [rich.table.Table]. *)
Record Table : Type := mk_Table {
  title : string;
  columns : list string;
  table_rows : list (list string)
}.

Definition add_column (header : string) (table : Table) : Table :=
  {| title := title table;
     columns := columns table ++ [header];
     table_rows := table_rows table |}.

Definition add_row (cells : list string) (table : Table) : Table :=
  {| title := title table;
     columns := columns table;
     table_rows := table_rows table ++ [cells] |}.

(** [Ticket.add_to_table]. *)
Definition add_to_table (self : Ticket) (table : Table) : Table :=
  let rowid := format_int (rowid self) in
  let name := name self in
  let description := description self in
  let project := project self in
  let status := status self in
  let created_by := created_by self in
  let created_at := isoformat (created_at self) in
  let notes := if str_truthy (notes self) then notes self else "" in
  let assigned_to :=
    match assigned_to self with
    | Some v => if str_truthy v then v else ""
    | None => ""
    end in
  let updated_by :=
    match updated_by self with
    | Some v => if str_truthy v then v else ""
    | None => ""
    end in
  let updated_at :=
    match updated_at self with
    | UpdatedAt d => isoformat d
    | UpdatedNone | UpdatedZero => ""
    end in
  add_row
    [rowid; name; description; project; status; assigned_to; notes;
     created_by; created_at; updated_by; updated_at]
    table.

(** What a handler prints. *)
Inductive output : Type :=
| print_json (data : list json_object)
| print_table (table : Table).

(** *** The listing query *)

(** The text [_list_tickets] starts from, and the join it adds for a
    search. *)
Definition select_from_ticket : string := "
    SELECT
        t.rowid,
        t.name,
        t.description,
        t.project,
        t.status,
        t.assigned_to,
        t.notes,
        t.created_by,
        t.created_at,
        t.updated_by,
        t.updated_at
    FROM ticket t
    ".

Definition join_ticket_fts : string := "
            INNER JOIN ticket_fts ON ticket_fts.rowid  = t.rowid
                AND ticket_fts MATCH :search
        ".

(** The statement and the bindings [_list_tickets] hands to
    [conn.execute]: a clause and its binding are added for each filter
    that is truthy. *)
Definition _list_tickets_query
    (status search assigned_to created_by : option string)
    : string * dict :=
  let params := [] in
  let sql := select_from_ticket in
  let '(sql, params) :=
    match search with
    | Some v =>
        if str_truthy v
        then (sql ++ join_ticket_fts, dict_set "search" v params)
        else (sql, params)
    | None => (sql, params)
    end in
  let sql := sql ++ "WHERE 1 = 1" in
  let '(sql, params) :=
    match status with
    | Some v =>
        if str_truthy v
        then (sql ++ "    AND t.status = :status",
              dict_set "status" v params)
        else (sql, params)
    | None => (sql, params)
    end in
  let '(sql, params) :=
    match assigned_to with
    | Some v =>
        if str_truthy v
        then (sql ++ "    AND t.assigned_to = :assigned_to",
              dict_set "assigned_to" v params)
        else (sql, params)
    | None => (sql, params)
    end in
  let '(sql, params) :=
    match created_by with
    | Some v =>
        if str_truthy v
        then (sql ++ "    AND t.created_by = :created_by",
              dict_set "created_by" v params)
        else (sql, params)
    | None => (sql, params)
    end in
  (sql, params).

(** *** Running the listing query

    SQLite is given the text and the bindings, nothing else.  The
    statements [_list_tickets] can build are read back from their text:
    the fixed SELECT, the optional join on the index, [WHERE 1 = 1] and
    any sequence of the three equality clauses. *)
Inductive column : Type := t_status | t_assigned_to | t_created_by.

Definition column_name (c : column) : string :=
  match c with
  | t_status => "status"
  | t_assigned_to => "assigned_to"
  | t_created_by => "created_by"
  end.

(** The value of a column in a row; [None] is NULL. *)
Definition column_value (c : column) (r : raw_row) : option string :=
  match c with
  | t_status => Some (raw_status r)
  | t_assigned_to => raw_assigned_to r
  | t_created_by => Some (raw_created_by r)
  end.

(** [    AND t.c = :c], the clause and the parameter of the same name. *)
Definition clause_text (c : column) : string :=
  "    AND t." ++ column_name c ++ " = :" ++ column_name c.

Record select_statement : Type := mk_select {
  join_match : bool;
  where_equal : list column
}.

Fixpoint strip_prefix (prefix s : string) : option string :=
  match prefix with
  | EmptyString => Some s
  | String a prefix' =>
      match s with
      | String b s' => if Ascii.eqb a b then strip_prefix prefix' s' else None
      | EmptyString => None
      end
  end.

Definition strip_clause (s : string) : option (column * string) :=
  match strip_prefix (clause_text t_status) s with
  | Some rest => Some (t_status, rest)
  | None =>
      match strip_prefix (clause_text t_assigned_to) s with
      | Some rest => Some (t_assigned_to, rest)
      | None =>
          match strip_prefix (clause_text t_created_by) s with
          | Some rest => Some (t_created_by, rest)
          | None => None
          end
      end
  end.

Fixpoint parse_where (fuel : nat) (s : string) : option (list column) :=
  match s with
  | EmptyString => Some []
  | String _ _ =>
      match fuel with
      | O => None
      | S fuel' =>
          match strip_clause s with
          | Some (c, rest) => option_map (cons c) (parse_where fuel' rest)
          | None => None
          end
      end
  end.

Definition parse_select (sql : string) : option select_statement :=
  match strip_prefix select_from_ticket sql with
  | None => None
  | Some rest =>
      let '(joined, rest) :=
        match strip_prefix join_ticket_fts rest with
        | Some rest' => (true, rest')
        | None => (false, rest)
        end in
      match strip_prefix "WHERE 1 = 1" rest with
      | None => None
      | Some clauses =>
          option_map (mk_select joined)
            (parse_where (String.length clauses) clauses)
      end
  end.

(** [column = :parameter] on a row: NULL equals nothing. *)
Definition sql_equal (value : option string) (bound : string) : bool :=
  match value with
  | Some v => String.eqb v bound
  | None => false
  end.

(** The values bound to the parameters of the WHERE clauses; a parameter
    without a binding is refused by the driver. *)
Fixpoint bind_parameters (cs : list column) (params : dict)
    : option (list (column * string)) :=
  match cs with
  | [] => Some []
  | c :: cs' =>
      match dict_get (column_name c) params, bind_parameters cs' params with
      | Some v, Some bound => Some ((c, v) :: bound)
      | _, _ => None
      end
  end.

Definition satisfies (bound : list (column * string)) (r : raw_row) : bool :=
  forallb (fun '(c, v) => sql_equal (column_value c r) v) bound.

(** [conn.execute(sql, params)] followed by [cursor.fetchall()], for the
    statements of [_list_tickets].  Without the join the table is read in
    rowid order; with it, the rows are reached from the rowids the index
    reports for the search expression. *)
Definition execute_select (sql : string) (params : dict) : M (list Ticket) :=
  fun conn =>
    match parse_select sql with
    | None => (Raise (OperationalError "syntax error"), conn)
    | Some statement =>
        let source :=
          if join_match statement then
            match dict_get "search" params with
            | None => Raise (ProgrammingError "no value for :search")
            | Some expression =>
                match fts_match expression (ticket_fts conn) with
                | None =>
                    Raise
                      (OperationalError
                         (fts_match_error expression (ticket_fts conn)))
                | Some ids =>
                    Ok (flat_map
                          (fun id => filter (has_rowid id) (ticket conn))
                          ids)
                end
            end
          else Ok (ticket conn) in
        match source, bind_parameters (where_equal statement) params with
        | Raise e, _ => (Raise e, conn)
        | Ok _, None => (Raise (ProgrammingError "missing binding"), conn)
        | Ok rows, Some bound =>
            (Ok (map row_factory (filter (satisfies bound) rows)), conn)
        end
    end.

(** The tickets [_list_tickets] fetches. *)
Definition _list_tickets_fetchall
    (status search assigned_to created_by : option string)
    : M (list Ticket) :=
  let '(sql, params) :=
    _list_tickets_query status search assigned_to created_by in
  execute_select sql params.

(** [rich.print(table)] reads the title, the headers and the cells as
    markup; the first text it cannot read makes it raise. *)
Fixpoint first_markup_error (texts : list string) : option string :=
  match texts with
  | [] => None
  | text :: texts' =>
      match markup_error text with
      | Some message => Some message
      | None => first_markup_error texts'
      end
  end.

Definition render_error (table : Table) : option string :=
  first_markup_error
    (title table :: columns table ++ List.concat (table_rows table)).

(** [_list_tickets]: fetch, then print as JSON or as a table. *)
Definition _list_tickets
    (status search assigned_to created_by : option string)
    (format : string) : M output :=
  tickets <- _list_tickets_fetchall status search assigned_to created_by ;;
  if String.eqb format "json"
  then ret (print_json (map asdict tickets))
  else
    let table := {| title := "Tickets"; columns := []; table_rows := [] |} in
    let table := add_column "rowid" table in
    let table := add_column "name" table in
    let table := add_column "description" table in
    let table := add_column "project" table in
    let table := add_column "status" table in
    let table := add_column "assigned_to" table in
    let table := add_column "notes" table in
    let table := add_column "created_by" table in
    let table := add_column "created_at" table in
    let table := add_column "updated_by" table in
    let table := add_column "updated_at" table in
    let table :=
      fold_left (fun table ticket => add_to_table ticket table)
        tickets table in
    match render_error table with
    | Some message => raise (MarkupError message)
    | None => ret (print_table table)
    end.

(** *** Handlers

    The [argparse.Namespace] of each subcommand, with the global
    [--format].  An option that was not given is [None].  The ticket
    identifier reaches SQLite as the text of the argument and is compared
    with the integer rowid under its integer affinity; it is taken here as
    the integer it denotes. *)
Record ls_args : Type := mk_ls_args {
  ls_format : string;
  ls_search : option string;
  ls_assigned_to : option string;
  ls_created_by : option string;
  ls_status : option string
}.

Record new_args : Type := mk_new_args {
  new_format : string;
  new_name : string;
  new_description : string;
  new_assign_to : option string;
  new_project : string
}.

Record assign_args : Type := mk_assign_args {
  assign_format : string;
  assign_rowid : Z;
  assign_assign_to : option string
}.

Record done_args : Type := mk_done_args {
  done_format : string;
  done_rowid : Z;
  done_notes : string
}.

Definition list_ticket_handler (args : ls_args) (user : string)
    (current_datetime : datetime) (config : dict) : M output :=
  let status := ls_status args in
  let search := ls_search args in
  let assigned_to := ls_assigned_to args in
  let created_by := ls_created_by args in
  let format := ls_format args in
  _list_tickets status search assigned_to created_by format.

Definition create_ticket_handler (args : new_args) (user : string)
    (current_datetime : datetime) (config : dict) : M output :=
  let format := new_format args in
  let name := new_name args in
  let description := new_description args in
  let project :=
    if str_truthy (new_project args) then new_project args
    else dict_get_default "project" "default" config in
  let assigned_to :=
    if truthy (new_assign_to args) then new_assign_to args
    else Some user in
  _ <- new name description project assigned_to user current_datetime ;;
  _list_tickets (Some "") (Some "") (Some "") (Some "") format.

Definition assign_todo_handler (args : assign_args) (user : string)
    (current_datetime : datetime) (config : dict) : M output :=
  let format := assign_format args in
  let rowid := assign_rowid args in
  let assigned_to :=
    if truthy (assign_assign_to args) then assign_assign_to args
    else None in
  ticket <- get rowid ;;
  _ <- call_method ticket "assign_to" (fun self =>
         assign_to self TODO assigned_to user current_datetime) ;;
  _list_tickets (Some "") (Some "") (Some "") (Some "") format.

Definition assign_doing_handler (args : assign_args) (user : string)
    (current_datetime : datetime) (config : dict) : M output :=
  let format := assign_format args in
  let rowid := assign_rowid args in
  let assigned_to := or_else (assign_assign_to args) user in
  ticket <- get rowid ;;
  _ <- call_method ticket "assign_to" (fun self =>
         assign_to self DOING (Some assigned_to) user current_datetime) ;;
  _list_tickets (Some "") (Some "") (Some "") (Some "") format.

Definition mark_as_done_handler (args : done_args) (user : string)
    (current_datetime : datetime) (config : dict) : M output :=
  let format := done_format args in
  let rowid := done_rowid args in
  let notes := done_notes args in
  ticket <- get rowid ;;
  _ <- call_method ticket "mark_as_done" (fun self =>
         mark_as_done self notes user current_datetime) ;;
  _list_tickets (Some "") (Some "") (Some "") (Some "") format.

End Store.

Arguments Connection {engine}.
Arguments mk_Connection {engine} ticket ticket_fts.

(** ** Locating the configuration file

    An absolute path is the list of its components below the root.  The
    file system is what [glob] sees of it: which paths name an entry. *)
Definition path : Type := list string.

Inductive JireError : Type :=
| ConfigError (message : string).

(** [next(dir.glob(".jire.config"), None)]. *)
Definition glob_config (entry_exists : path -> bool) (dir : path)
    : option path :=
  if entry_exists (dir ++ [".jire.config"])%list
  then Some (dir ++ [".jire.config"])%list
  else None.

(** [p.parents]: the proper ancestors, nearest first, down to the root. *)
Definition parents (p : path) : list path :=
  map (fun n => firstn n p) (rev (seq 0 (List.length p))).

(** The loop over the parents: it stops at the first one that holds the
    file and otherwise ends with [config_path] unset. *)
Fixpoint first_config (entry_exists : path -> bool) (dirs : list path)
    : option path :=
  match dirs with
  | [] => None
  | dir :: dirs' =>
      match glob_config entry_exists dir with
      | Some config_path => Some config_path
      | None => first_config entry_exists dirs'
      end
  end.

(** [find_config_path]: the value returned, or the exception raised. *)
Definition find_config_path (entry_exists : path -> bool) (root_path : path)
    : path + JireError :=
  match glob_config entry_exists root_path with
  | Some config_path => inl config_path
  | None =>
      match first_config entry_exists (parents root_path) with
      | Some config_path => inl config_path
      | None => inr (ConfigError "Missing config file.")
      end
  end.

(** ** A concrete setting for examples

    An index that remembers the rows it was handed, and whose [MATCH]
    reports the rowids of those whose name is the expression; it keeps the
    total of [assigned_to] as FTS5 does.  A renderer that refuses a text
    whose first bracket opens a closing tag, as nothing is open there.  The
    local zone is UTC. *)
Definition name_index : Fts5 :=
  {| fts_index := list raw_row * nat;
     fts_insert := fun r index =>
       ((fst index ++ [r])%list,
        (snd index + tokens_of (raw_assigned_to r))%nat);
     fts_delete_insert := fun r index =>
       ((filter (fun r' => negb (raw_rowid r' =? raw_rowid r)) (fst index)
         ++ [r])%list,
        snd index);
     fts_match := fun expression index =>
       Some (map raw_rowid
               (filter (fun r => String.eqb (raw_name r) expression)
                  (fst index)));
     fts_match_error := fun _ _ => "fts5: syntax error";
     fts_assigned_to_total := snd;
     fts_insert_total := fun _ _ => eq_refl;
     fts_delete_insert_total := fun _ _ _ => eq_refl |}.

(** Whether a closing tag starts here: [/], then no bracket up to [\]]. *)
Fixpoint tag_closes (s : string) : bool :=
  match s with
  | EmptyString => false
  | String c s' =>
      if Ascii.eqb c "]" then true
      else if Ascii.eqb c "[" then false
      else tag_closes s'
  end.

Fixpoint first_tag_closes (s : string) : bool :=
  match s with
  | EmptyString => false
  | String c s' =>
      if Ascii.eqb c "["
      then match s' with
           | String d s'' => if Ascii.eqb d "/" then tag_closes s'' else false
           | EmptyString => false
           end
      else first_tag_closes s'
  end.

Definition closing_tag_markup : RichMarkup :=
  {| markup_error := fun text =>
       if first_tag_closes text
       then Some "closing tag has nothing to close"
       else None |}.

Definition utc_zone : LocalZone := {| local_utcoffset := fun _ => 0 |}.

Definition empty_connection : @Connection name_index :=
  {| ticket := []; ticket_fts := (([], O) : @fts_index name_index) |}.

Definition moment : datetime :=
  {| posix_us := 1700000000123456; tz_aware := true |}.

Definition fix_login : raw_row :=
  {| raw_rowid := 1;
     raw_name := "Fix login bug";
     raw_description := "";
     raw_project := "web";
     raw_status := DONE;
     raw_assigned_to := None;
     raw_notes := "fixed in v2";
     raw_created_by := "alice";
     raw_updated_by := Some "bob";
     raw_created_at := 1700000000;
     raw_updated_at := Some 1700000600 |}.

Definition write_docs : raw_row :=
  {| raw_rowid := 2;
     raw_name := "Write docs";
     raw_description := "README";
     raw_project := "web";
     raw_status := DOING;
     raw_assigned_to := Some "bob";
     raw_notes := "";
     raw_created_by := "bob";
     raw_updated_by := Some "bob";
     raw_created_at := 1700000100;
     raw_updated_at := Some 1700000200 |}.

(** A store with a DONE ticket and a DOING ticket, created for alice and
    for bob: two tokens in the [assigned_to] column of the index. *)
Definition two_tickets : @Connection name_index :=
  {| ticket := [fix_login; write_docs];
     ticket_fts :=
       (([fix_login; write_docs], 2%nat) : @fts_index name_index) |}.

(** A file system whose only configuration file is [/home/.jire.config]. *)
Definition home_config (p : path) : bool :=
  if list_eq_dec string_dec p ["home"; ".jire.config"] then true else false.

(** ** Vocabulary of the properties *)

Section Vocabulary.

Context {engine : Fts5} {zone : LocalZone} {rich : RichMarkup}.

(** The identifiers in use in the store. *)
Definition rowids (conn : Connection) : list Z := map raw_rowid (ticket conn).

(** The columns that only the INSERT writes. *)
Definition creation_columns (r : raw_row)
    : Z * string * string * string * string * Z :=
  (raw_rowid r, raw_name r, raw_description r, raw_project r,
   raw_created_by r, raw_created_at r).

(** What [row_factory] makes of a stored [updated_at]. *)
Definition stamp (now : datetime) : updated_at_value :=
  if adapt_datetime_epoch now =? 0 then UpdatedZero
  else UpdatedAt (fromtimestamp (adapt_datetime_epoch now)).

(** A ticket with its status, assignee and update stamp replaced, every
    other field kept. *)
Definition reassigned (t : Ticket) (new_status : string)
    (new_assigned_to : option string) (user : string) (now : datetime)
    : Ticket :=
  {| rowid := rowid t;
     name := name t;
     description := description t;
     project := project t;
     status := new_status;
     assigned_to := new_assigned_to;
     notes := notes t;
     created_by := created_by t;
     updated_by := Some user;
     created_at := created_at t;
     updated_at := stamp now |}.

(** A ticket with its status, assignee, notes and update stamp replaced,
    every other field kept. *)
Definition completed (t : Ticket) (new_notes user : string) (now : datetime)
    : Ticket :=
  {| rowid := rowid t;
     name := name t;
     description := description t;
     project := project t;
     status := DONE;
     assigned_to := None;
     notes := new_notes;
     created_by := created_by t;
     updated_by := Some user;
     created_at := created_at t;
     updated_at := stamp now |}.



(** A run that the trigger of the index aborted: it raised
    [DatabaseError] and the store is as it was. *)
Definition rolled_back {A : Type} (run : result A * Connection)
    (conn : Connection) : Prop :=
  exists message : string,
    fst run = Raise (DatabaseError message) /\ snd run = conn.

(** The largest rowid SQLite can give. *)
Definition max_rowid : Z := 9223372036854775807.

(** A filter that is given, that is neither [None] nor empty, asks for
    equality with its value; a filter that is not given asks for nothing. *)
Definition filter_holds (given value : option string) : Prop :=
  forall v, given = Some v -> v <> "" -> value = Some v.

(** The conjunction of the equalities of the filters given. *)
Definition satisfies_filters (status_filter assigned_to_filter
    created_by_filter : option string) (t : Ticket) : Prop :=
  filter_holds status_filter (Some (status t))
  /\ filter_holds assigned_to_filter (assigned_to t)
  /\ filter_holds created_by_filter (Some (created_by t)).

Definition filter_holdsb (given value : option string) : bool :=
  match given with
  | Some v => if str_truthy v then sql_equal value v else true
  | None => true
  end.

Definition satisfies_filtersb (status_filter assigned_to_filter
    created_by_filter : option string) (t : Ticket) : bool :=
  filter_holdsb status_filter (Some (status t))
  && filter_holdsb assigned_to_filter (assigned_to t)
  && filter_holdsb created_by_filter (Some (created_by t)).

(** The binding a filter contributes: its value under the parameter name
    when it is given, nothing otherwise. *)
Definition binding (parameter : string) (given : option string) : dict :=
  match given with
  | Some v => if str_truthy v then [(parameter, v)] else []
  | None => []
  end.

(** The columns of the WHERE clauses of the filters given. *)
Definition where_columns (status_filter assigned_to_filter
    created_by_filter : option string) : list column :=
  ((if truthy status_filter then [t_status] else [])
   ++ (if truthy assigned_to_filter then [t_assigned_to] else [])
   ++ (if truthy created_by_filter then [t_created_by] else []))%list.

(** The three statuses the handlers write. *)
Definition valid_status (s : string) : Prop :=
  s = TODO \/ s = DOING \/ s = DONE.

(** Creating one ticket after another, from a list of the arguments of
    [Ticket.new]. *)
Fixpoint new_each
    (items : list (string * string * string * option string * string
                   * datetime))
    (conn : Connection) : Connection :=
  match items with
  | [] => conn
  | (new_name, new_description, new_project, assignee, creator, now)
    :: items' =>
      new_each items'
        (snd (new new_name new_description new_project assignee creator now
                conn))
  end.

(** The headers of the console table, in its order. *)
Definition console_columns : list string :=
  [ "rowid"; "name"; "description"; "project"; "status"; "assigned_to";
    "notes"; "created_by"; "created_at"; "updated_by"; "updated_at" ].

(** The value under a key of a JSON object. *)
Fixpoint json_get (key : string) (o : json_object) : option (option string) :=
  match o with
  | [] => None
  | (k, v) :: o' => if String.eqb k key then Some v else json_get key o'
  end.

(** The text of a JSON value in a table cell: [null] shows as nothing. *)
Definition cell_text (v : option (option string)) : string :=
  match v with
  | Some (Some s) => s
  | _ => ""
  end.

(** The timestamp column a decoded [updated_at] came from. *)
Definition stored_updated_at (u : updated_at_value) : option Z :=
  match u with
  | UpdatedNone => None
  | UpdatedZero => Some 0
  | UpdatedAt d => Some (adapt_datetime_epoch d)
  end.

(** The index does not hold the tokens of a new status or of a new
    assignee: the UPDATE that writes them on a row is aborted. *)
Definition over_totals (conn : Connection) (new_status : string)
    (new_assigned_to : option string) : bool :=
  Nat.ltb (List.length (ticket conn)) (token_count new_status)
  || Nat.ltb (fts_assigned_to_total (ticket_fts conn))
       (tokens_of new_assigned_to).

(** The rowids of a table that SQLite numbers by adding one: positive and
    below the largest. *)
Definition rowids_in_range (conn : Connection) : Prop :=
  Forall (fun id => 0 < id < max_rowid) (rowids conn).

(** The seconds below which the double of [val.timestamp()] still tells
    microseconds apart, so that [int] cuts it to the whole seconds of the
    instant: [2 ^ 34], in the year 2514. *)
Definition exact_seconds : Z := 17179869184.

(** An instant from the epoch on that [adapt_datetime_epoch] stores
    exactly. *)
Definition exact_instant (now : datetime) : Prop :=
  0 <= posix_us now < 1000000 * exact_seconds.

End Vocabulary.

(** ** The model at work *)

Example isoformat_of_stored_time :
  isoformat (zone := utc_zone) (fromtimestamp 1700000000)
  = "2023-11-14T22:13:20".
Proof. reflexivity. Qed.

Example isoformat_in_local_zone :
  isoformat (zone := {| local_utcoffset := fun _ => 7200 |})
    (fromtimestamp 951782400)
  = "2000-02-29T02:00:00".
Proof. reflexivity. Qed.

Example adapter_truncates : adapt_datetime_epoch moment = 1700000000.
Proof. reflexivity. Qed.

(** The session of the specification: create, start, complete. *)
Example session_new :
  fst (create_ticket_handler (zone := utc_zone) (rich := closing_tag_markup)
         (mk_new_args "json" "Fix login bug" "" None "") "alice" moment
         [("project", "web")] empty_connection)
  = Ok (print_json
          [ [ ("rowid", Some "1"); ("name", Some "Fix login bug");
              ("description", Some ""); ("project", Some "web");
              ("status", Some "TODO"); ("assigned_to", Some "alice");
              ("notes", Some ""); ("created_by", Some "alice");
              ("updated_by", None);
              ("created_at", Some "2023-11-14T22:13:20");
              ("updated_at", Some "") ] ]).
Proof. vm_compute. reflexivity. Qed.

Example session_doing_then_done :
  fst (bind (assign_doing_handler (zone := utc_zone)
               (rich := closing_tag_markup)
               (mk_assign_args "json" 1 (Some "bob")) "alice" moment [])
         (fun _ =>
            mark_as_done_handler (zone := utc_zone)
              (rich := closing_tag_markup)
              (mk_done_args "console" 1 "fixed in v2") "alice" moment [])
         (snd (create_ticket_handler (zone := utc_zone)
                 (rich := closing_tag_markup)
                 (mk_new_args "json" "Fix login bug" "" None "") "alice"
                 moment [("project", "web")] empty_connection)))
  = Ok (print_table
          {| title := "Tickets";
             columns :=
               [ "rowid"; "name"; "description"; "project"; "status";
                 "assigned_to"; "notes"; "created_by"; "created_at";
                 "updated_by"; "updated_at" ];
             table_rows :=
               [ [ "1"; "Fix login bug"; ""; "web"; "DONE"; ""; "fixed in v2";
                   "alice"; "2023-11-14T22:13:20"; "alice";
                   "2023-11-14T22:13:20" ] ] |}).
Proof. vm_compute. reflexivity. Qed.

Example listing_statement :
  _list_tickets_query (Some "DONE") None (Some "") (Some "alice")
  = (select_from_ticket
       ++ "WHERE 1 = 1    AND t.status = :status    AND t.created_by = :created_by",
     [("status", "DONE"); ("created_by", "alice")]).
Proof. reflexivity. Qed.

Example listing_by_status_and_search :
  fst (list_ticket_handler (zone := utc_zone) (rich := closing_tag_markup)
         (mk_ls_args "console" (Some "Write docs") None None (Some "DOING"))
         "alice" moment [] two_tickets)
  = Ok (print_table
          {| title := "Tickets";
             columns :=
               [ "rowid"; "name"; "description"; "project"; "status";
                 "assigned_to"; "notes"; "created_by"; "created_at";
                 "updated_by"; "updated_at" ];
             table_rows :=
               [ [ "2"; "Write docs"; "README"; "web"; "DOING"; "bob"; "";
                   "bob"; "2023-11-14T22:15:00"; "bob";
                   "2023-11-14T22:16:40" ] ] |}).
Proof. vm_compute. reflexivity. Qed.

(** [todo 1 --assign_to 'bob smith'] on a store with one ticket, created
    for alice: the index holds one token for [assigned_to], the new value
    has two, and the trigger aborts the UPDATE. *)
Example todo_two_tokens_aborts :
  assign_todo_handler (zone := utc_zone) (rich := closing_tag_markup)
    (mk_assign_args "json" 1 (Some "bob smith")) "alice" moment []
    (snd (new "Fix login bug" "" "web" (Some "alice") "alice" moment
            empty_connection))
  = (Raise (DatabaseError "database disk image is malformed"),
     snd (new "Fix login bug" "" "web" (Some "alice") "alice" moment
            empty_connection)).
Proof. vm_compute. reflexivity. Qed.

(** [new '[/b] fix'] with the console format: the ticket is stored, and
    printing the table fails on its name. *)
Example new_closing_tag_fails_to_print :
  fst (create_ticket_handler (zone := utc_zone) (rich := closing_tag_markup)
         (mk_new_args "console" "[/b] fix" "" None "") "alice" moment []
         empty_connection)
  = Raise (MarkupError "closing tag has nothing to close")
  /\ map raw_name
       (ticket
          (snd (create_ticket_handler (zone := utc_zone)
                  (rich := closing_tag_markup)
                  (mk_new_args "console" "[/b] fix" "" None "") "alice"
                  moment [] empty_connection)))
     = ["[/b] fix"].
Proof. vm_compute. split; reflexivity. Qed.

(** ** Facts about the statements *)

Section Statements.

Context {engine : Fts5} {zone : LocalZone} {rich : RichMarkup}.

Lemma filter_has_rowid_present (id : Z) (rows : list raw_row) :
  In id (map raw_rowid rows) ->
  exists r rest, filter (has_rowid id) rows = r :: rest /\ raw_rowid r = id.
Proof.
  induction rows as [|r rows IH]; simpl; [tauto|].
  intros [Heq | Hin].
  - exists r, (filter (has_rowid id) rows).
    unfold has_rowid at 1. rewrite Heq, Z.eqb_refl. auto.
  - destruct (IH Hin) as (r' & rest & Hf & Hid).
    destruct (has_rowid id r) eqn:Hr.
    + exists r, (r' :: rest). rewrite Hf. split; [reflexivity|].
      now apply Z.eqb_eq.
    + now exists r', rest.
Qed.

Lemma filter_has_rowid_absent (id : Z) (rows : list raw_row) :
  ~ In id (map raw_rowid rows) -> filter (has_rowid id) rows = [].
Proof.
  induction rows as [|r rows IH]; simpl; [reflexivity|].
  intros Hnot. destruct (has_rowid id r) eqn:Hr.
  - apply Z.eqb_eq in Hr. tauto.
  - apply IH. tauto.
Qed.

(** The rows an UPDATE rewrote are the rows its WHERE clause finds
    afterwards, as long as the rowid is not assigned to. *)
Lemma filter_updated (id : Z) (set : raw_row -> raw_row)
    (rows : list raw_row) :
  (forall r, raw_rowid (set r) = raw_rowid r) ->
  filter (has_rowid id)
    (map (fun r => if has_rowid id r then set r else r) rows)
  = map set (filter (has_rowid id) rows).
Proof.
  intros Hset. induction rows as [|r rows IH]; simpl; [reflexivity|].
  destruct (has_rowid id r) eqn:Hr; simpl.
  - unfold has_rowid at 1. rewrite Hset. fold (has_rowid id r).
    rewrite Hr. simpl. now rewrite IH.
  - rewrite Hr. exact IH.
Qed.

Lemma fold_max_le (rows : list raw_row) (m : Z) :
  m <= fold_left (fun m r' => Z.max m (raw_rowid r')) rows m
  /\ forall r, In r rows ->
      raw_rowid r <= fold_left (fun m r' => Z.max m (raw_rowid r')) rows m.
Proof.
  revert m. induction rows as [|r rows IH]; intros m; simpl.
  - split; [lia | tauto].
  - destruct (IH (Z.max m (raw_rowid r))) as [Hm Hall]. split; [lia|].
    intros r' [-> | Hin]; [lia | now apply Hall].
Qed.

(** The rowid of an INSERT is above every rowid in use. *)
Lemma next_rowid_above (rows : list raw_row) (r : raw_row) :
  In r rows -> raw_rowid r < next_rowid rows.
Proof.
  destruct rows as [|r0 rows]; [simpl; tauto|].
  unfold next_rowid.
  destruct (fold_max_le rows (raw_rowid r0)) as [Hm Hall].
  intros [<- | Hin]; [lia|]. specialize (Hall r Hin). lia.
Qed.

Lemma next_rowid_fresh (rows : list raw_row) :
  ~ In (next_rowid rows) (map raw_rowid rows).
Proof.
  intros Hin. apply in_map_iff in Hin. destruct Hin as (r & Heq & Hin).
  apply next_rowid_above in Hin. lia.
Qed.

(** What [Ticket.get] returns when the row is there. *)
Lemma get_present (conn : Connection) (id : Z) :
  In id (map raw_rowid (ticket conn)) ->
  exists t, get id conn = (Ok (Some t), conn) /\ rowid t = id.
Proof.
  intros Hin.
  destruct (filter_has_rowid_present id _ Hin) as (r & rest & Hf & Hid).
  exists (row_factory r). unfold get. rewrite Hf. simpl. auto.
Qed.

Lemma get_absent (conn : Connection) (id : Z) :
  ~ In id (map raw_rowid (ticket conn)) -> get id conn = (Ok None, conn).
Proof.
  intros Hnot. unfold get. now rewrite filter_has_rowid_absent.
Qed.

(** *** The trigger of the index *)



Lemma done_one_token : (token_count DONE <= 1)%nat.
Proof. vm_compute. apply le_n. Qed.

(** Rows rewritten with one status and one assignee: the trigger aborts
    when there is such a row and the two are over the totals. *)
Lemma existsb_aborts (conn : Connection) (set : raw_row -> raw_row)
    (new_status : string) (new_assigned_to : option string)
    (hits : list raw_row) :
  (forall r, raw_status (set r) = new_status) ->
  (forall r, raw_assigned_to (set r) = new_assigned_to) ->
  existsb (update_ticket_aborts conn) (map set hits)
  = match hits with
    | [] => false
    | _ :: _ => over_totals conn new_status new_assigned_to
    end.
Proof.
  intros Hst Ha. induction hits as [|r hits IH]; [reflexivity|].
  cbn [map existsb]. rewrite IH. unfold update_ticket_aborts at 1.
  rewrite Hst, Ha. fold (over_totals conn new_status new_assigned_to).
  destruct (over_totals conn new_status new_assigned_to), hits; reflexivity.
Qed.

(** A status of one token and no assignee are within the totals of a
    table that has a row. *)
Lemma one_token_within (conn : Connection) (new_status : string) :
  ticket conn <> [] ->
  (token_count new_status <= 1)%nat ->
  over_totals conn new_status None = false.
Proof.
  intros Hrows Hone. unfold over_totals. cbn [tokens_of].
  apply orb_false_iff. split; apply Nat.ltb_ge; [|lia].
  destruct (ticket conn); [congruence | cbn [List.length]; lia].
Qed.


(** The trigger never aborts an UPDATE that writes a status of one token
    and no assignee. *)
Lemma accepted_one_token (conn : Connection) (id : Z)
    (set : raw_row -> raw_row) (new_status : string) :
  (token_count new_status <= 1)%nat ->
  (forall r, raw_status (set r) = new_status) ->
  (forall r, raw_assigned_to (set r) = None) ->
  existsb (update_ticket_aborts conn)
    (map set (filter (has_rowid id) (ticket conn)))
  = false.
Proof.
  intros Hone Hst Ha.
  rewrite (existsb_aborts conn set new_status None _ Hst Ha).
  destruct (filter (has_rowid id) (ticket conn)) as [|r hits] eqn:Hf;
    [reflexivity|].
  apply one_token_within; [|exact Hone].
  intros Hempty. rewrite Hempty in Hf. discriminate.
Qed.

(** The test of the trigger reads the store through the two totals. *)
Lemma existsb_aborts_same (conn conn' : Connection) (rows : list raw_row) :
  List.length (ticket conn') = List.length (ticket conn) ->
  fts_assigned_to_total (ticket_fts conn')
  = fts_assigned_to_total (ticket_fts conn) ->
  existsb (update_ticket_aborts conn') rows
  = existsb (update_ticket_aborts conn) rows.
Proof.
  intros Hlen Htotal. unfold update_ticket_aborts.
  now rewrite Hlen, Htotal.
Qed.

Lemma aborts_none_assigned (conn : Connection) (rows : list raw_row) :
  existsb (update_ticket_aborts conn) rows = false ->
  existsb
    (fun r =>
       Nat.ltb (fts_assigned_to_total (ticket_fts conn))
         (tokens_of (raw_assigned_to r)))
    rows
  = false.
Proof.
  induction rows as [|r rows IH]; [reflexivity|].
  cbn [existsb]. intros Hok. apply orb_false_iff in Hok.
  destruct Hok as [Hr Hrows]. unfold update_ticket_aborts in Hr.
  apply orb_false_iff in Hr. destruct Hr as [_ Hr].
  rewrite Hr. now apply IH.
Qed.

(** Rows within the total leave it as it was. *)
Lemma fold_delete_insert_total (rows : list raw_row) (index : fts_index) :
  existsb
    (fun r =>
       Nat.ltb (fts_assigned_to_total index) (tokens_of (raw_assigned_to r)))
    rows
  = false ->
  fts_assigned_to_total
    (fold_left (fun index r => fts_delete_insert r index) rows index)
  = fts_assigned_to_total index.
Proof.
  revert index. induction rows as [|r rows IH]; intros index Hok;
    [reflexivity|].
  cbn [existsb] in Hok. apply orb_false_iff in Hok.
  destruct Hok as [Hr Hrows]. apply Nat.ltb_ge in Hr. cbn [fold_left].
  rewrite IH.
  - now apply fts_delete_insert_total.
  - now rewrite (fts_delete_insert_total r index Hr).
Qed.

(** *** The UPDATE *)

Lemma execute_update_accepted (conn : Connection) (id : Z)
    (set : raw_row -> raw_row) :
  existsb (update_ticket_aborts conn)
    (map set (filter (has_rowid id) (ticket conn)))
  = false ->
  execute_update id set conn
  = (Ok (fetchone (map set (filter (has_rowid id) (ticket conn)))),
     {| ticket :=
          map (fun r => if has_rowid id r then set r else r) (ticket conn);
        ticket_fts :=
          fold_left (fun index r => fts_delete_insert r index)
            (map set (filter (has_rowid id) (ticket conn)))
            (ticket_fts conn) |}).
Proof. intros Hok. unfold execute_update. cbv zeta. now rewrite Hok. Qed.

Lemma execute_update_aborted (conn : Connection) (id : Z)
    (set : raw_row -> raw_row) :
  existsb (update_ticket_aborts conn)
    (map set (filter (has_rowid id) (ticket conn)))
  = true ->
  execute_update id set conn
  = (Raise (DatabaseError "database disk image is malformed"), conn).
Proof. intros Hok. unfold execute_update. cbv zeta. now rewrite Hok. Qed.

(** An UPDATE that goes through on an existing row returns the rewritten
    row, and a later [get] reads the same ticket. *)
Lemma execute_update_present (conn : Connection) (id : Z)
    (set : raw_row -> raw_row) :
  (forall r, raw_rowid (set r) = raw_rowid r) ->
  In id (map raw_rowid (ticket conn)) ->
  existsb (update_ticket_aborts conn)
    (map set (filter (has_rowid id) (ticket conn)))
  = false ->
  exists r,
    hd_error (filter (has_rowid id) (ticket conn)) = Some r
    /\ raw_rowid r = id
    /\ fst (execute_update id set conn) = Ok (Some (row_factory (set r)))
    /\ fst (get id (snd (execute_update id set conn)))
       = Ok (Some (row_factory (set r))).
Proof.
  intros Hset Hin Hok.
  destruct (filter_has_rowid_present id _ Hin) as (r & rest & Hf & Hid).
  exists r. rewrite (execute_update_accepted conn id set Hok).
  unfold get; cbn [fst snd ticket].
  rewrite (filter_updated id set _ Hset), Hf. simpl. auto.
Qed.

(** The value an UPDATE returns, read off the row it finds. *)
Lemma execute_update_returns (conn : Connection) (id : Z)
    (set : raw_row -> raw_row) :
  fst (execute_update id set conn)
  = if existsb (update_ticket_aborts conn)
         (map set (filter (has_rowid id) (ticket conn)))
    then Raise (DatabaseError "database disk image is malformed")
    else Ok (option_map (fun r => row_factory (set r))
               (hd_error (filter (has_rowid id) (ticket conn)))).
Proof.
  unfold execute_update. cbv zeta.
  destruct (existsb _ _); [reflexivity|]. cbn [fst]. unfold fetchone.
  now destruct (filter (has_rowid id) (ticket conn)).
Qed.

(** The table an UPDATE leaves. *)
Lemma execute_update_rows (conn : Connection) (id : Z)
    (set : raw_row -> raw_row) :
  ticket (snd (execute_update id set conn))
  = if existsb (update_ticket_aborts conn)
         (map set (filter (has_rowid id) (ticket conn)))
    then ticket conn
    else map (fun r => if has_rowid id r then set r else r) (ticket conn).
Proof.
  unfold execute_update. cbv zeta. now destruct (existsb _ _).
Qed.

(** A projection that the SET clause does not change is the same on the
    whole table after the UPDATE. *)
Lemma execute_update_keeps {A : Type} (column : raw_row -> A)
    (conn : Connection) (id : Z) (set : raw_row -> raw_row) :
  (forall r, column (set r) = column r) ->
  map column (ticket (snd (execute_update id set conn)))
  = map column (ticket conn).
Proof.
  intros Hset. rewrite execute_update_rows.
  destruct (existsb _ _); [reflexivity|]. rewrite map_map.
  apply map_ext. intros r. now destruct (has_rowid id r).
Qed.

(** The rows the WHERE clause does not find are the same after the
    UPDATE. *)
Lemma execute_update_others (conn : Connection) (id : Z)
    (set : raw_row -> raw_row) :
  (forall r, raw_rowid (set r) = raw_rowid r) ->
  filter (fun r => negb (has_rowid id r))
    (ticket (snd (execute_update id set conn)))
  = filter (fun r => negb (has_rowid id r)) (ticket conn).
Proof.
  intros Hset. rewrite execute_update_rows.
  destruct (existsb _ _); [reflexivity|].
  induction (ticket conn) as [|r rows IH]; simpl; [reflexivity|].
  destruct (has_rowid id r) eqn:Hr; simpl.
  - unfold has_rowid at 1. rewrite Hset. fold (has_rowid id r).
    rewrite Hr. simpl. exact IH.
  - rewrite Hr. simpl. now rewrite IH.
Qed.

(** The rows of another rowid are found as they were. *)
Lemma execute_update_other_hits (conn : Connection) (id id' : Z)
    (set : raw_row -> raw_row) :
  id' <> id ->
  (forall r, raw_rowid (set r) = raw_rowid r) ->
  filter (has_rowid id') (ticket (snd (execute_update id set conn)))
  = filter (has_rowid id') (ticket conn).
Proof.
  intros Hne Hset. rewrite execute_update_rows.
  destruct (existsb _ _); [reflexivity|].
  induction (ticket conn) as [|r rows IH]; simpl; [reflexivity|].
  destruct (has_rowid id r) eqn:Hr; [|now rewrite IH].
  assert (Hr' : has_rowid id' r = false).
  { apply Z.eqb_eq in Hr. apply Z.eqb_neq. congruence. }
  assert (Hs : has_rowid id' (set r) = false).
  { unfold has_rowid. rewrite Hset. exact Hr'. }
  rewrite Hs, Hr'. exact IH.
Qed.

(** An UPDATE leaves the two totals as they were. *)
Lemma execute_update_totals (conn : Connection) (id : Z)
    (set : raw_row -> raw_row) :
  List.length (ticket (snd (execute_update id set conn)))
  = List.length (ticket conn)
  /\ fts_assigned_to_total (ticket_fts (snd (execute_update id set conn)))
     = fts_assigned_to_total (ticket_fts conn).
Proof.
  unfold execute_update. cbv zeta.
  destruct (existsb _ _) eqn:Hok; [split; reflexivity|].
  cbn [snd ticket ticket_fts]. split; [apply length_map|].
  apply fold_delete_insert_total. now apply aborts_none_assigned.
Qed.

(** The test of the trigger is the same after an UPDATE of another
    rowid. *)
Lemma aborts_after_other (conn : Connection) (id id' : Z)
    (set set' : raw_row -> raw_row) :
  id' <> id ->
  (forall r, raw_rowid (set r) = raw_rowid r) ->
  existsb (update_ticket_aborts (snd (execute_update id set conn)))
    (map set'
       (filter (has_rowid id') (ticket (snd (execute_update id set conn)))))
  = existsb (update_ticket_aborts conn)
      (map set' (filter (has_rowid id') (ticket conn))).
Proof.
  intros Hne Hset. rewrite (execute_update_other_hits conn id id' set Hne Hset).
  destruct (execute_update_totals conn id set) as [Hlen Htotal].
  now apply existsb_aborts_same.
Qed.


(** A second UPDATE of the same rows that overwrites what the first one
    wrote: the trigger decides as for the second alone, the ticket
    returned is that of the second alone, and so is the table when the
    second goes through. *)
Lemma execute_update_absorbs (conn : Connection) (id : Z)
    (set1 set2 : raw_row -> raw_row) :
  (forall r, raw_rowid (set1 r) = raw_rowid r) ->
  (forall r, set2 (set1 r) = set2 r) ->
  fst (execute_update id set2 (snd (execute_update id set1 conn)))
  = fst (execute_update id set2 conn)
  /\ (existsb (update_ticket_aborts conn)
        (map set2 (filter (has_rowid id) (ticket conn)))
      = false ->
      ticket (snd (execute_update id set2 (snd (execute_update id set1 conn))))
      = ticket (snd (execute_update id set2 conn)))
  /\ (existsb (update_ticket_aborts conn)
        (map set2 (filter (has_rowid id) (ticket conn)))
      = true ->
      execute_update id set2 (snd (execute_update id set1 conn))
      = (Raise (DatabaseError "database disk image is malformed"),
         snd (execute_update id set1 conn))).
Proof.
  intros Hid Habsorb.
  destruct (execute_update_totals conn id set1) as [Hlen Htotal].
  assert (Hhits : map set2
                    (filter (has_rowid id)
                       (ticket (snd (execute_update id set1 conn))))
                  = map set2 (filter (has_rowid id) (ticket conn))).
  { rewrite execute_update_rows. destruct (existsb _ _); [reflexivity|].
    rewrite (filter_updated id set1 _ Hid), map_map.
    apply map_ext. exact Habsorb. }
  assert (Htest : existsb
                    (update_ticket_aborts (snd (execute_update id set1 conn)))
                    (map set2
                       (filter (has_rowid id)
                          (ticket (snd (execute_update id set1 conn)))))
                  = existsb (update_ticket_aborts conn)
                      (map set2 (filter (has_rowid id) (ticket conn)))).
  { rewrite Hhits. now apply existsb_aborts_same. }
  destruct (existsb (update_ticket_aborts conn)
              (map set2 (filter (has_rowid id) (ticket conn)))) eqn:Hok.
  - rewrite (execute_update_aborted _ id set2 Htest).
    rewrite (execute_update_aborted conn id set2 Hok).
    split; [reflexivity|]. split; [discriminate | reflexivity].
  - rewrite (execute_update_accepted _ id set2 Htest).
    rewrite (execute_update_accepted conn id set2 Hok).
    cbn [fst snd ticket]. rewrite Hhits.
    split; [reflexivity|]. split; [|discriminate]. intros _.
    rewrite (execute_update_rows conn id set1).
    destruct (existsb (update_ticket_aborts conn)
                (map set1 (filter (has_rowid id) (ticket conn))));
      [reflexivity|].
    rewrite map_map. apply map_ext. intros r.
    destruct (has_rowid id r) eqn:Hr.
    + unfold has_rowid at 1. rewrite Hid. fold (has_rowid id r).
      now rewrite Hr, Habsorb.
    + now rewrite Hr.
Qed.

(** UPDATEs of different rowids can be run in either order. *)
Lemma execute_update_commutes (conn : Connection) (id1 id2 : Z)
    (set1 set2 : raw_row -> raw_row) :
  id1 <> id2 ->
  (forall r, raw_rowid (set1 r) = raw_rowid r) ->
  (forall r, raw_rowid (set2 r) = raw_rowid r) ->
  ticket (snd (execute_update id2 set2 (snd (execute_update id1 set1 conn))))
  = ticket (snd (execute_update id1 set1 (snd (execute_update id2 set2 conn)))).
Proof.
  intros Hne H1 H2.
  rewrite (execute_update_rows (snd (execute_update id1 set1 conn))).
  rewrite (execute_update_rows (snd (execute_update id2 set2 conn))).
  rewrite (aborts_after_other conn id1 id2 set1 set2) by congruence.
  rewrite (aborts_after_other conn id2 id1 set2 set1) by congruence.
  rewrite !execute_update_rows.
  destruct (existsb (update_ticket_aborts conn)
              (map set1 (filter (has_rowid id1) (ticket conn))));
    destruct (existsb (update_ticket_aborts conn)
                (map set2 (filter (has_rowid id2) (ticket conn))));
    try reflexivity.
  rewrite !map_map. apply map_ext. intros r.
  destruct (has_rowid id1 r) eqn:Hr1, (has_rowid id2 r) eqn:Hr2; cbv iota.
  - apply Z.eqb_eq in Hr1, Hr2. congruence.
  - assert (Hs : has_rowid id2 (set1 r) = false)
      by (unfold has_rowid; rewrite H1; exact Hr2).
    rewrite ?Hs, ?Hr1, ?Hr2. reflexivity.
  - assert (Hs : has_rowid id1 (set2 r) = false)
      by (unfold has_rowid; rewrite H2; exact Hr1).
    rewrite ?Hs, ?Hr1, ?Hr2. reflexivity.
  - rewrite ?Hr1, ?Hr2. reflexivity.
Qed.

(** A property of a column that the SET clause establishes, or keeps,
    holds on the whole table after the UPDATE if it held before. *)
Lemma execute_update_Forall {A : Type} (P : A -> Prop)
    (column : raw_row -> A) (conn : Connection) (id : Z)
    (set : raw_row -> raw_row) :
  (forall r, P (column (set r))) ->
  Forall P (map column (ticket conn)) ->
  Forall P (map column (ticket (snd (execute_update id set conn)))).
Proof.
  intros Hset Hall. rewrite execute_update_rows.
  destruct (existsb _ _); [exact Hall|].
  rewrite map_map. rewrite Forall_map in *. rewrite Forall_forall in *.
  intros r Hr. destruct (has_rowid id r); [apply Hset | now apply Hall].
Qed.

(** *** The listing query *)

Lemma query_params (st se a c : option string) :
  snd (_list_tickets_query st se a c)
  = (binding "search" se ++ binding "status" st
     ++ binding "assigned_to" a ++ binding "created_by" c)%list.
Proof.
  destruct st as [[|? ?]|], se as [[|? ?]|], a as [[|? ?]|], c as [[|? ?]|];
    reflexivity.
Qed.

(** The text depends on which filters are given, not on their values. *)
Lemma query_text_flags (st se a c : option string) :
  fst (_list_tickets_query st se a c)
  = fst (_list_tickets_query
           (if truthy st then Some "x" else None)
           (if truthy se then Some "x" else None)
           (if truthy a then Some "x" else None)
           (if truthy c then Some "x" else None)).
Proof.
  destruct st as [[|? ?]|], se as [[|? ?]|], a as [[|? ?]|], c as [[|? ?]|];
    reflexivity.
Qed.

(** SQLite reads back from the text the join and the clauses that were
    added. *)
Lemma query_parses (st se a c : option string) :
  parse_select (fst (_list_tickets_query st se a c))
  = Some (mk_select (truthy se) (where_columns st a c)).
Proof.
  rewrite query_text_flags. unfold where_columns.
  destruct (truthy st), (truthy se), (truthy a), (truthy c);
    vm_compute; reflexivity.
Qed.

Lemma filter_map_commute {A B : Type} (f : A -> B) (p : B -> bool)
    (l : list A) :
  filter p (map f l) = map f (filter (fun x => p (f x)) l).
Proof.
  induction l as [|x l IH]; simpl; [reflexivity|].
  destruct (p (f x)); simpl; now rewrite IH.
Qed.

Lemma filter_holdsb_spec (given value : option string) :
  filter_holdsb given value = true <-> filter_holds given value.
Proof.
  unfold filter_holdsb, filter_holds. destruct given as [[|ch g]|].
  - split; [|reflexivity]. intros _ v Hv Hne. congruence.
  - unfold str_truthy, sql_equal. destruct value as [w|].
    + rewrite String.eqb_eq. split.
      * intros -> v Hv _. congruence.
      * intros H. specialize (H _ eq_refl ltac:(discriminate)). congruence.
    + split; [discriminate|].
      intros H. specialize (H _ eq_refl ltac:(discriminate)). discriminate.
  - split; [|reflexivity]. intros _ v Hv. discriminate.
Qed.

Lemma satisfies_filtersb_spec (st a c : option string) (t : Ticket) :
  satisfies_filtersb st a c t = true <-> satisfies_filters st a c t.
Proof.
  unfold satisfies_filtersb, satisfies_filters.
  rewrite !andb_true_iff, !filter_holdsb_spec. tauto.
Qed.

(** Every clause finds its binding. *)
Lemma query_binds (st a c : option string) :
  bind_parameters (where_columns st a c)
    (binding "status" st ++ binding "assigned_to" a
     ++ binding "created_by" c)%list
  = Some (map (fun v => (t_status, v)) (map snd (binding "status" st))
          ++ map (fun v => (t_assigned_to, v))
               (map snd (binding "assigned_to" a))
          ++ map (fun v => (t_created_by, v))
               (map snd (binding "created_by" c)))%list.
Proof.
  destruct st as [[|? ?]|], a as [[|? ?]|], c as [[|? ?]|]; reflexivity.
Qed.

(** Without a search the listing reads the table in order and keeps the
    rows on which every filter given holds. *)
Lemma fetchall_without_search (conn : Connection)
    (st se a c : option string) :
  truthy se = false ->
  _list_tickets_fetchall st se a c conn
  = (Ok (filter (satisfies_filtersb st a c) (map row_factory (ticket conn))),
     conn).
Proof.
  intros Hse. unfold _list_tickets_fetchall.
  pose proof (query_parses st se a c) as Hparse.
  pose proof (query_params st se a c) as Hparams.
  destruct (_list_tickets_query st se a c) as [sql params].
  cbn [fst snd] in Hparse, Hparams. unfold execute_select.
  rewrite Hparse, Hse. cbn [join_match where_equal]. subst params.
  assert (Hnone : binding "search" se = []).
  { destruct se as [[|? ?]|]; [reflexivity | discriminate | reflexivity]. }
  rewrite Hnone, filter_map_commute. cbn [app]. rewrite query_binds.
  do 3 f_equal. apply filter_ext. intros r.
  unfold satisfies_filtersb, satisfies.
  destruct st as [[|? st]|], a as [[|? a]|], c as [[|? c]|];
    cbn -[String.eqb]; rewrite ?andb_true_r, ?andb_assoc; reflexivity.
Qed.

(** The search binding is not the binding of any WHERE clause. *)
Lemma query_binds_search (q : string) (st a c : option string) :
  bind_parameters (where_columns st a c)
    (("search", q)
     :: binding "status" st ++ binding "assigned_to" a
        ++ binding "created_by" c)%list
  = bind_parameters (where_columns st a c)
      (binding "status" st ++ binding "assigned_to" a
       ++ binding "created_by" c)%list.
Proof.
  destruct st as [[|? ?]|], a as [[|? ?]|], c as [[|? ?]|]; reflexivity.
Qed.

(** The bound clauses hold on a row exactly when the filters hold on its
    ticket. *)
Lemma satisfies_bound (st a c : option string) (r : raw_row) :
  satisfies
    (map (fun v => (t_status, v)) (map snd (binding "status" st))
     ++ map (fun v => (t_assigned_to, v)) (map snd (binding "assigned_to" a))
     ++ map (fun v => (t_created_by, v)) (map snd (binding "created_by" c)))
    r
  = satisfies_filtersb st a c (row_factory r).
Proof.
  unfold satisfies_filtersb, satisfies.
  destruct st as [[|? st]|], a as [[|? a]|], c as [[|? c]|];
    cbn -[String.eqb]; rewrite ?andb_true_r, ?andb_assoc; reflexivity.
Qed.

(** With a search the listing goes through the rowids the index reports,
    or fails when the index rejects the expression. *)
Lemma fetchall_with_search (conn : Connection) (st a c : option string)
    (q : string) :
  str_truthy q = true ->
  _list_tickets_fetchall st (Some q) a c conn
  = match fts_match q (ticket_fts conn) with
    | None =>
        (Raise (OperationalError (fts_match_error q (ticket_fts conn))), conn)
    | Some ids =>
        (Ok (filter (satisfies_filtersb st a c)
               (map row_factory
                  (flat_map (fun id => filter (has_rowid id) (ticket conn))
                     ids))),
         conn)
    end.
Proof.
  intros Hq. unfold _list_tickets_fetchall.
  pose proof (query_parses st (Some q) a c) as Hparse.
  pose proof (query_params st (Some q) a c) as Hparams.
  destruct (_list_tickets_query st (Some q) a c) as [sql params].
  cbn [fst snd] in Hparse, Hparams. unfold execute_select.
  rewrite Hparse. cbn [truthy join_match where_equal]. rewrite Hq.
  subst params. cbn [binding]. rewrite Hq. cbn [app dict_get].
  change (String.eqb "search" "search") with true. cbv iota.
  destruct (fts_match q (ticket_fts conn)) as [ids|]; [|reflexivity].
  rewrite query_binds_search, query_binds, filter_map_commute.
  do 3 f_equal. apply filter_ext. intros r. apply satisfies_bound.
Qed.

(** The table under construction: its headers are a prefix of the
    console headers and every row has eleven cells. *)
Lemma add_to_table_rows (tickets : list Ticket) (table : Table) :
  columns (fold_left (fun table ticket => add_to_table ticket table) tickets
             table)
  = columns table
  /\ List.length
       (table_rows
          (fold_left (fun table ticket => add_to_table ticket table) tickets
             table))
     = (List.length (table_rows table) + List.length tickets)%nat
  /\ (Forall (fun cells => List.length cells = 11%nat) (table_rows table) ->
      Forall (fun cells => List.length cells = 11%nat)
        (table_rows
           (fold_left (fun table ticket => add_to_table ticket table) tickets
              table))).
Proof.
  revert table. induction tickets as [|t tickets IH]; intros table; simpl.
  - split; [reflexivity|]. split; [lia | auto].
  - destruct (IH (add_to_table t table)) as (Hcols & Hlen & Hall).
    split; [exact Hcols|]. split.
    + rewrite Hlen. unfold add_to_table, add_row; simpl.
      rewrite length_app. simpl. lia.
    + intros Hrows. apply Hall. unfold add_to_table, add_row; simpl.
      apply Forall_app. split; [exact Hrows|]. repeat constructor.
Qed.

(** *** The listing *)

(** A listing never writes to the store. *)
Lemma list_tickets_store (conn : Connection) (st se a c : option string)
    (format : string) :
  snd (_list_tickets st se a c format conn) = conn.
Proof.
  unfold _list_tickets, bind. cbv zeta.
  destruct (truthy se) eqn:Hse.
  - destruct se as [[|ch q]|]; try discriminate.
    rewrite (fetchall_with_search conn _ _ _ (String ch q) eq_refl).
    destruct (fts_match (String ch q) (ticket_fts conn)); [|reflexivity].
    destruct (String.eqb format "json"); [reflexivity|].
    destruct (render_error _); reflexivity.
  - rewrite (fetchall_without_search conn _ _ _ _ Hse).
    destruct (String.eqb format "json"); [reflexivity|].
    destruct (render_error _); reflexivity.
Qed.

(** Once the tickets are fetched, a JSON listing prints, and a console
    listing prints unless a text of the table is not markup. *)
Lemma list_tickets_prints (conn : Connection) (st se a c : option string)
    (format : string) (tickets : list Ticket) :
  _list_tickets_fetchall st se a c conn = (Ok tickets, conn) ->
  (format = "json"
   /\ fst (_list_tickets st se a c format conn)
      = Ok (print_json (map asdict tickets)))
  \/ (format <> "json"
      /\ ((exists table : Table,
             fst (_list_tickets st se a c format conn)
             = Ok (print_table table))
          \/ (exists message : string,
                fst (_list_tickets st se a c format conn)
                = Raise (MarkupError message)))).
Proof.
  intros Hfetch. unfold _list_tickets, bind. cbv zeta. rewrite Hfetch.
  destruct (String.eqb_spec format "json") as [Hjson | Hconsole].
  - left. split; [exact Hjson | reflexivity].
  - right. split; [exact Hconsole|].
    destruct (render_error _);
      [right | left]; eexists; reflexivity.
Qed.

(** The listing of the whole table, as the handlers ask for it. *)
Lemma list_unfiltered_prints (conn : Connection) (format : string) :
  (format = "json"
   /\ fst (_list_tickets None None None None format conn)
      = Ok (print_json (map asdict (map row_factory (ticket conn)))))
  \/ (format <> "json"
      /\ ((exists table : Table,
             fst (_list_tickets None None None None format conn)
             = Ok (print_table table))
          \/ (exists message : string,
                fst (_list_tickets None None None None format conn)
                = Raise (MarkupError message)))).
Proof.
  apply list_tickets_prints.
  rewrite (fetchall_without_search conn None None None None eq_refl).
  do 2 f_equal.
  induction (map row_factory (ticket conn)) as [|t l IH];
    simpl; congruence.
Qed.

(** *** The handlers *)

(** A handler that finds its ticket runs the UPDATE and then lists, unless
    the trigger aborts the UPDATE. *)
Lemma handler_run (conn : Connection) (id : Z)
    (set : raw_row -> raw_row) (attribute format : string) :
  (forall r, raw_rowid (set r) = raw_rowid r) ->
  In id (map raw_rowid (ticket conn)) ->
  bind (get id) (fun ticket =>
    bind (call_method ticket attribute (fun self =>
            execute_update (rowid self) set))
      (fun _ =>
         _list_tickets (Some "") (Some "") (Some "") (Some "") format))
    conn
  = if existsb (update_ticket_aborts conn)
         (map set (filter (has_rowid id) (ticket conn)))
    then (Raise (DatabaseError "database disk image is malformed"), conn)
    else (fst (_list_tickets None None None None format
                 (snd (execute_update id set conn))),
          snd (execute_update id set conn)).
Proof.
  intros Hset Hin.
  destruct (filter_has_rowid_present id _ Hin) as (r & rest & Hf & Hid).
  destruct (existsb (update_ticket_aborts conn)
              (map set (filter (has_rowid id) (ticket conn)))) eqn:Hok;
    unfold bind at 1; unfold get at 1, fetchone; rewrite Hf;
    cbn [hd_error option_map call_method row_factory rowid]; rewrite Hid;
    unfold bind.
  - now rewrite (execute_update_aborted conn id set Hok).
  - rewrite (execute_update_accepted conn id set Hok). cbn [snd].
    match goal with
    | |- _list_tickets _ _ _ _ _ ?conn' = _ =>
        pose proof (list_tickets_store conn' None None None None format)
          as Hstore;
        change (_list_tickets (Some "") (Some "") (Some "") (Some "") format
                  conn')
          with (_list_tickets None None None None format conn');
        destruct (_list_tickets None None None None format conn')
          as [res conn'']
    end.
    cbn [fst snd] in *. now subst.
Qed.

(** What a handler that updates does to the store: what the UPDATE does
    when the ticket is there, nothing when it is not. *)
Lemma handler_store (conn : Connection) (id : Z)
    (set : raw_row -> raw_row) (attribute format : string) :
  (forall r, raw_rowid (set r) = raw_rowid r) ->
  snd (bind (get id) (fun ticket =>
         bind (call_method ticket attribute (fun self =>
                 execute_update (rowid self) set))
           (fun _ =>
              _list_tickets (Some "") (Some "") (Some "") (Some "") format))
         conn)
  = (if in_dec Z.eq_dec id (map raw_rowid (ticket conn))
     then snd (execute_update id set conn)
     else conn).
Proof.
  intros Hset. destruct (in_dec Z.eq_dec id (map raw_rowid (ticket conn)))
    as [Hin | Hnot].
  - rewrite (handler_run conn id set attribute format Hset Hin).
    destruct (existsb (update_ticket_aborts conn)
                (map set (filter (has_rowid id) (ticket conn)))) eqn:Hok;
      [|reflexivity].
    now rewrite (execute_update_aborted conn id set Hok).
  - unfold bind at 1. now rewrite (get_absent conn id Hnot).
Qed.

(** [assign_to] on a ticket of the store, when the trigger lets it
    through and when it does not. *)
Lemma assign_to_accepted (conn : Connection) (self : Ticket)
    (new_status : string) (assignee : option string) (user : string)
    (now : datetime) :
  In (rowid self) (map raw_rowid (ticket conn)) ->
  over_totals conn new_status assignee = false ->
  exists r,
    hd_error (filter (has_rowid (rowid self)) (ticket conn)) = Some r
    /\ fst (assign_to self new_status assignee user now conn)
       = Ok (Some (reassigned (row_factory r) new_status assignee user now))
    /\ fst (get (rowid self)
              (snd (assign_to self new_status assignee user now conn)))
       = Ok (Some (reassigned (row_factory r) new_status assignee user now)).
Proof.
  intros Hin Hok. unfold assign_to.
  destruct (filter_has_rowid_present _ _ Hin) as (r0 & rest & Hf & _).
  destruct (execute_update_present conn (rowid self)
              (fun r => mk_raw_row (raw_rowid r) (raw_name r)
                 (raw_description r) (raw_project r) new_status assignee
                 (raw_notes r) (raw_created_by r) (Some user)
                 (raw_created_at r) (Some (adapt_datetime_epoch now))))
    as (r & Hhd & _ & Hret & Hget); [reflexivity | exact Hin | |].
  - rewrite (existsb_aborts conn _ new_status assignee)
      by (intros; reflexivity).
    now rewrite Hf.
  - exists r. split; [exact Hhd|]. split; [exact Hret | exact Hget].
Qed.

Lemma assign_to_aborted (conn : Connection) (self : Ticket)
    (new_status : string) (assignee : option string) (user : string)
    (now : datetime) :
  In (rowid self) (map raw_rowid (ticket conn)) ->
  over_totals conn new_status assignee = true ->
  assign_to self new_status assignee user now conn
  = (Raise (DatabaseError "database disk image is malformed"), conn).
Proof.
  intros Hin Hover. unfold assign_to.
  destruct (filter_has_rowid_present _ _ Hin) as (r0 & rest & Hf & _).
  apply execute_update_aborted.
  rewrite (existsb_aborts conn _ new_status assignee)
    by (intros; reflexivity).
  now rewrite Hf.
Qed.

(** [mark_as_done] on a ticket of the store always goes through. *)
Lemma mark_as_done_accepted (conn : Connection) (self : Ticket)
    (text user : string) (now : datetime) :
  In (rowid self) (map raw_rowid (ticket conn)) ->
  exists r,
    hd_error (filter (has_rowid (rowid self)) (ticket conn)) = Some r
    /\ fst (mark_as_done self text user now conn)
       = Ok (Some (completed (row_factory r) text user now))
    /\ fst (get (rowid self) (snd (mark_as_done self text user now conn)))
       = Ok (Some (completed (row_factory r) text user now)).
Proof.
  intros Hin. unfold mark_as_done.
  destruct (execute_update_present conn (rowid self)
              (fun r => mk_raw_row (raw_rowid r) (raw_name r)
                 (raw_description r) (raw_project r) DONE None text
                 (raw_created_by r) (Some user) (raw_created_at r)
                 (Some (adapt_datetime_epoch now))))
    as (r & Hhd & _ & Hret & Hget); [reflexivity | exact Hin | |].
  - apply (accepted_one_token conn (rowid self) _ DONE done_one_token);
      reflexivity.
  - exists r. split; [exact Hhd|]. split; [exact Hret | exact Hget].
Qed.


(** The run of the [done] handler on a ticket of the store. *)
Lemma done_handler_run (conn : Connection) (self : Ticket)
    (text user : string) (now : datetime) (format : string) :
  In (rowid self) (map raw_rowid (ticket conn)) ->
  bind (get (rowid self)) (fun ticket =>
    bind (call_method ticket "mark_as_done" (fun self =>
            mark_as_done self text user now))
      (fun _ =>
         _list_tickets (Some "") (Some "") (Some "") (Some "") format))
    conn
  = (fst (_list_tickets None None None None format
            (snd (mark_as_done self text user now conn))),
     snd (mark_as_done self text user now conn)).
Proof.
  intros Hin. unfold mark_as_done.
  rewrite (handler_run conn (rowid self)
             (fun r => mk_raw_row (raw_rowid r) (raw_name r)
                (raw_description r) (raw_project r) DONE None text
                (raw_created_by r) (Some user) (raw_created_at r)
                (Some (adapt_datetime_epoch now)))
             "mark_as_done" format (fun r => eq_refl) Hin).
  now rewrite (accepted_one_token conn (rowid self) _ DONE done_one_token).
Qed.

(** The run of the [new] handler: the INSERT, then the listing. *)
Lemma create_handler_run (conn : Connection) (args : new_args)
    (user : string) (now : datetime) (config : dict) :
  create_ticket_handler args user now config conn
  = (fst (_list_tickets None None None None (new_format args)
            (snd (new (new_name args) (new_description args)
                    (if str_truthy (new_project args) then new_project args
                     else dict_get_default "project" "default" config)
                    (if truthy (new_assign_to args) then new_assign_to args
                     else Some user)
                    user now conn))),
     snd (new (new_name args) (new_description args)
            (if str_truthy (new_project args) then new_project args
             else dict_get_default "project" "default" config)
            (if truthy (new_assign_to args) then new_assign_to args
             else Some user)
            user now conn)).
Proof.
  unfold create_ticket_handler, bind, new. cbv iota beta zeta. cbn [snd].
  match goal with
  | |- _list_tickets _ _ _ _ ?format ?conn' = _ =>
      pose proof (list_tickets_store conn' None None None None format)
        as Hstore;
      change (_list_tickets (Some "") (Some "") (Some "") (Some "") format
                conn')
        with (_list_tickets None None None None format conn');
      destruct (_list_tickets None None None None format conn')
        as [res conn'']
  end.
  cbn [fst snd] in *. now subst.
Qed.







(** *** Rowids and timestamps *)

Lemma increasing_snoc (l : list Z) (y : Z) :
  StronglySorted Z.lt l ->
  (forall x, In x l -> x < y) ->
  StronglySorted Z.lt (l ++ [y]).
Proof.
  induction 1 as [|x l Hs IH Hall]; intros Hy; simpl.
  - constructor; constructor.
  - constructor.
    + apply IH. intros z Hz. apply Hy. now right.
    + apply Forall_app. split; [exact Hall|].
      constructor; [|constructor]. apply Hy. now left.
Qed.

Lemma increasing_NoDup (l : list Z) : StronglySorted Z.lt l -> NoDup l.
Proof.
  induction 1 as [|x l Hs IH Hall]; constructor; [|exact IH].
  intros Hin. rewrite Forall_forall in Hall. specialize (Hall x Hin). lia.
Qed.

Lemma rowids_after_new (conn : Connection)
    (new_name new_description new_project : string)
    (assignee : option string) (creator : string) (now : datetime) :
  map raw_rowid
    (ticket (snd (new new_name new_description new_project assignee creator
                    now conn)))
  = (map raw_rowid (ticket conn) ++ [next_rowid (ticket conn)])%list.
Proof. unfold new; simpl. now rewrite map_app. Qed.

Lemma rowid_below_next (rows : list raw_row) (id : Z) :
  In id (map raw_rowid rows) -> id < next_rowid rows.
Proof.
  intros Hin. apply in_map_iff in Hin. destruct Hin as (r & <- & Hin).
  now apply next_rowid_above.
Qed.

(** The largest rowid in use is one of the rowids in use. *)
Lemma fold_max_in (rows : list raw_row) (m : Z) :
  fold_left (fun m r' => Z.max m (raw_rowid r')) rows m = m
  \/ In (fold_left (fun m r' => Z.max m (raw_rowid r')) rows m)
       (map raw_rowid rows).
Proof.
  revert m. induction rows as [|r rows IH]; intros m; simpl; [now left|].
  destruct (IH (Z.max m (raw_rowid r))) as [Heq | Hin].
  - rewrite Heq. destruct (Z.max_spec m (raw_rowid r)) as [[_ ->] | [_ ->]];
      auto.
  - right. now right.
Qed.

Lemma next_rowid_in (rows : list raw_row) :
  rows = [] /\ next_rowid rows = 1
  \/ In (next_rowid rows - 1) (map raw_rowid rows).
Proof.
  destruct rows as [|r rows]; [now left|]. right. unfold next_rowid.
  replace (1 + fold_left (fun m r' => Z.max m (raw_rowid r')) rows
                 (raw_rowid r) - 1)
    with (fold_left (fun m r' => Z.max m (raw_rowid r')) rows (raw_rowid r))
    by lia.
  destruct (fold_max_in rows (raw_rowid r)) as [-> | Hin]; simpl; auto.
Qed.

(** In a table numbered from 1 without gaps the next rowid goes on
    counting. *)
Lemma next_rowid_counts (rows : list raw_row) (n : nat) :
  map raw_rowid rows = map Z.of_nat (seq 1 n) ->
  next_rowid rows = Z.of_nat (S n).
Proof.
  intros Hids. destruct (next_rowid_in rows) as [[-> Hone] | Hin].
  - destruct n; [exact Hone | discriminate Hids].
  - assert (Hle : next_rowid rows - 1 <= Z.of_nat n).
    { rewrite Hids in Hin. apply in_map_iff in Hin.
      destruct Hin as (k & Hk & Hin). apply in_seq in Hin. lia. }
    destruct n as [|n].
    + destruct rows; [simpl in Hin; tauto | discriminate Hids].
    + assert (Hlast : In (Z.of_nat (S n)) (map raw_rowid rows)).
      { rewrite Hids. apply in_map. apply in_seq. lia. }
      apply rowid_below_next in Hlast. lia.
Qed.

Lemma new_each_counts
    (items : list (string * string * string * option string * string
                   * datetime))
    (conn : Connection) (n : nat) :
  map raw_rowid (ticket conn) = map Z.of_nat (seq 1 n) ->
  map raw_rowid (ticket (new_each items conn))
  = map Z.of_nat (seq 1 (n + List.length items)).
Proof.
  revert conn n. induction items as [|[[[[[a b] c] d] e] f] items IH];
    intros conn n Hids; cbn [new_each List.length].
  - now rewrite Nat.add_0_r.
  - rewrite (IH _ (S n)); [f_equal; f_equal; lia|].
    rewrite rowids_after_new, (next_rowid_counts _ n Hids), Hids.
    now rewrite seq_S, map_app.
Qed.

Lemma adapt_fromtimestamp (t : Z) : adapt_datetime_epoch (fromtimestamp t) = t.
Proof.
  unfold adapt_datetime_epoch, timestamp_us, fromtimestamp; cbn [posix_us].
  apply Z.quot_mul. lia.
Qed.

Lemma stored_updated_at_decoded (r : raw_row) :
  stored_updated_at (updated_at (row_factory r)) = raw_updated_at r.
Proof.
  unfold row_factory; cbn [updated_at]. destruct (raw_updated_at r) as [t|];
    [|reflexivity].
  destruct (t =? 0) eqn:Ht; cbn [stored_updated_at].
  - apply Z.eqb_eq in Ht. now subst.
  - now rewrite adapt_fromtimestamp.
Qed.

(** *** The configuration file *)

(** The nearest ancestor that holds the file, among the [k] outermost. *)
Lemma first_config_parents (entry_exists : path -> bool) (p : path) (k : nat) :
  match first_config entry_exists
          (map (fun n => firstn n p) (rev (seq 0 k))) with
  | Some config_path =>
      exists n : nat,
        (n < k)%nat
        /\ config_path = (firstn n p ++ [".jire.config"])%list
        /\ entry_exists config_path = true
        /\ forall m : nat,
             (n < m < k)%nat ->
             entry_exists (firstn m p ++ [".jire.config"])%list = false
  | None =>
      forall n : nat,
        (n < k)%nat ->
        entry_exists (firstn n p ++ [".jire.config"])%list = false
  end.
Proof.
  induction k as [|k IH].
  - simpl. intros n Hn. lia.
  - rewrite seq_S, rev_app_distr. cbn [rev app map first_config plus].
    unfold glob_config.
    destruct (entry_exists (firstn k p ++ [".jire.config"])%list) eqn:Hk.
    + exists k. repeat split; [lia | exact Hk |]. intros m Hm. lia.
    + destruct (first_config entry_exists
                  (map (fun n => firstn n p) (rev (seq 0 k))))
        as [config_path|].
      * destruct IH as (n & Hn & Hc & He & Hbelow).
        exists n. repeat split; [lia | exact Hc | exact He |].
        intros m Hm. destruct (Nat.eq_dec m k) as [-> | Hmk];
          [exact Hk | apply Hbelow; lia].
      * intros n Hn. destruct (Nat.eq_dec n k) as [-> | Hnk];
          [exact Hk | apply IH; lia].
Qed.

End Statements.

(** ** The properties *)

(** C1. Completion: for a ticket of the store, whatever its status was,
    [mark_as_done] returns a ticket whose status is DONE, whose assignee is
    null and whose notes are the notes supplied, and that ticket is the one
    the store then holds under the identifier. *)
Theorem mark_as_done_completion {engine : Fts5} (conn : Connection)
    (self : Ticket) (text user : string) (now : datetime) :
  In (rowid self) (rowids conn) ->
  exists done : Ticket,
    fst (mark_as_done self text user now conn) = Ok (Some done)
    /\ fst (get (rowid self) (snd (mark_as_done self text user now conn)))
       = Ok (Some done)
    /\ status done = DONE
    /\ assigned_to done = None
    /\ notes done = text.
Proof.
  intros Hin.
  destruct (mark_as_done_accepted conn self text user now Hin)
    as (r & _ & Hret & Hget).
  eexists. split; [exact Hret|]. split; [exact Hget|]. auto.
Qed.

Lemma mark_as_done_completion_witness :
  In (rowid (row_factory write_docs)) (rowids two_tickets)
  /\ exists done : Ticket,
       fst (mark_as_done (row_factory write_docs) "fixed in v2" "carol" moment
              two_tickets) = Ok (Some done)
       /\ fst (get (rowid (row_factory write_docs))
                 (snd (mark_as_done (row_factory write_docs) "fixed in v2"
                         "carol" moment two_tickets)))
          = Ok (Some done)
       /\ status done = DONE
       /\ assigned_to done = None
       /\ notes done = "fixed in v2".
Proof.
  split.
  - simpl. auto.
  - apply (mark_as_done_completion two_tickets (row_factory write_docs)).
    simpl. auto.
Defined.



(** C3. Filter correctness: without a search, the listing fetches, in
    table order, exactly the tickets of the store on which the equality of
    every filter given holds, a filter being given when it is neither
    [None] nor empty; with no filter it fetches every ticket.  The JSON
    listing prints those tickets. *)
Theorem list_tickets_filter_correct {engine : Fts5} {zone : LocalZone}
    {rich : RichMarkup}
    (conn : Connection) (status_filter search assigned_to_filter
    created_by_filter : option string) :
  truthy search = false ->
  exists tickets : list Ticket,
    _list_tickets_fetchall status_filter search assigned_to_filter
      created_by_filter conn
    = (Ok tickets, conn)
    /\ (forall t : Ticket,
          In t tickets
          <-> In t (map row_factory (ticket conn))
              /\ satisfies_filters status_filter assigned_to_filter
                   created_by_filter t)
    /\ tickets
       = filter
           (satisfies_filtersb status_filter assigned_to_filter
              created_by_filter)
           (map row_factory (ticket conn))
    /\ _list_tickets_fetchall None search None None conn
       = (Ok (map row_factory (ticket conn)), conn)
    /\ _list_tickets status_filter search assigned_to_filter created_by_filter
         "json" conn
       = (Ok (print_json (map asdict tickets)), conn).
Proof.
  intros Hsearch. eexists.
  split; [now apply fetchall_without_search|].
  split; [|split; [reflexivity|split]].
  - intros t. rewrite filter_In, satisfies_filtersb_spec. tauto.
  - rewrite (fetchall_without_search conn None search None None Hsearch).
    do 2 f_equal. induction (map row_factory (ticket conn)) as [|t l IH];
      simpl; congruence.
  - unfold _list_tickets, bind.
    now rewrite (fetchall_without_search conn _ _ _ _ Hsearch).
Qed.

Lemma list_tickets_filter_correct_witness :
  truthy None = false
  /\ exists tickets : list Ticket,
       _list_tickets_fetchall (Some "DOING") None (Some "bob") None two_tickets
       = (Ok tickets, two_tickets)
       /\ (forall t : Ticket,
             In t tickets
             <-> In t (map row_factory (ticket two_tickets))
                 /\ satisfies_filters (Some "DOING") (Some "bob") None t)
       /\ tickets
          = filter (satisfies_filtersb (Some "DOING") (Some "bob") None)
              (map row_factory (ticket two_tickets))
       /\ _list_tickets_fetchall None None None None two_tickets
          = (Ok (map row_factory (ticket two_tickets)), two_tickets)
       /\ _list_tickets (zone := utc_zone) (rich := closing_tag_markup)
            (Some "DOING") None (Some "bob") None "json" two_tickets
          = (Ok (print_json (map (asdict (zone := utc_zone)) tickets)),
             two_tickets).
Proof.
  split; [reflexivity|].
  apply (list_tickets_filter_correct (zone := utc_zone)
           (rich := closing_tag_markup) two_tickets (Some "DOING") None
           (Some "bob") None).
  reflexivity.
Defined.

(** C4, on the code as it is: for an identifier with no row [Ticket.get]
    does not fail; it returns [None], and the three handlers that
    dereference the result raise [AttributeError] with the store unchanged.
    No not-found error exists. *)
Theorem get_missing_returns_none {engine : Fts5} {zone : LocalZone}
    {rich : RichMarkup}
    (conn : Connection) (id : Z) (format : string) (assignee : option string)
    (text user : string) (now : datetime) (config : dict) :
  ~ In id (rowids conn) ->
  get id conn = (Ok None, conn)
  /\ assign_todo_handler (mk_assign_args format id assignee) user now config
       conn
     = (Raise (AttributeError "NoneType" "assign_to"), conn)
  /\ assign_doing_handler (mk_assign_args format id assignee) user now config
       conn
     = (Raise (AttributeError "NoneType" "assign_to"), conn)
  /\ mark_as_done_handler (mk_done_args format id text) user now config conn
     = (Raise (AttributeError "NoneType" "mark_as_done"), conn).
Proof.
  intros Hnot. pose proof (get_absent conn id Hnot) as Hget.
  unfold assign_todo_handler, assign_doing_handler, mark_as_done_handler.
  cbn [assign_rowid done_rowid]. unfold bind at 1 3 5. rewrite Hget.
  repeat split.
Qed.

Lemma get_missing_returns_none_witness :
  ~ In 1 (rowids empty_connection)
  /\ get 1 empty_connection = (Ok None, empty_connection)
  /\ mark_as_done_handler (zone := utc_zone) (rich := closing_tag_markup)
       (mk_done_args "console" 1 "") "alice" moment [] empty_connection
     = (Raise (AttributeError "NoneType" "mark_as_done"), empty_connection).
Proof.
  assert (Hnot : ~ In 1 (rowids empty_connection)) by (simpl; tauto).
  split; [exact Hnot|].
  destruct (get_missing_returns_none (zone := utc_zone)
              (rich := closing_tag_markup) empty_connection 1 "console" None
              "" "alice" moment [] Hnot)
    as (Hget & _ & _ & Hdone).
  split; [exact Hget | exact Hdone].
Defined.

(** C5, on the code as it is: the JSON object of a ticket that was just
    created has the eleven names in order and strings under ten of them;
    under [updated_by] it has [null], not the empty string, because
    [asdict] passes the attribute through.  [add_to_table] renders the same
    attribute as the empty string. *)
Theorem asdict_updated_by_null {engine : Fts5} {zone : LocalZone}
    (conn : Connection) (new_name new_description new_project : string)
    (assignee : option string) (creator : string) (now : datetime) :
  exists t : Ticket,
    fst (new new_name new_description new_project assignee creator now conn)
      = Ok (Some t)
    /\ asdict t
       = [ ("rowid", Some (format_int (rowid t)));
           ("name", Some new_name);
           ("description", Some new_description);
           ("project", Some new_project);
           ("status", Some "TODO");
           ("assigned_to", Some (or_else assignee ""));
           ("notes", Some "");
           ("created_by", Some creator);
           ("updated_by", None);
           ("created_at",
            Some (isoformat (fromtimestamp (adapt_datetime_epoch now))));
           ("updated_at", Some "") ]
    /\ table_rows (add_to_table t (mk_Table "Tickets" [] []))
       = [ [ format_int (rowid t); new_name; new_description; new_project;
             "TODO"; or_else assignee ""; ""; creator;
             isoformat (fromtimestamp (adapt_datetime_epoch now)); ""; "" ] ].
Proof.
  eexists. split; [reflexivity|]. split.
  - unfold asdict; simpl. repeat f_equal. now destruct new_project.
  - reflexivity.
Qed.

(** C6. Bound parameters: when the same filters are given in two calls,
    the statement text is the same whatever the values are; the values
    appear in the bindings only, each under the name of its parameter. *)
Theorem query_text_independent_of_values
    (status_filter search assigned_to_filter created_by_filter
     status_filter' search' assigned_to_filter' created_by_filter'
     : option string) :
  truthy status_filter = truthy status_filter' ->
  truthy search = truthy search' ->
  truthy assigned_to_filter = truthy assigned_to_filter' ->
  truthy created_by_filter = truthy created_by_filter' ->
  fst (_list_tickets_query status_filter search assigned_to_filter
         created_by_filter)
  = fst (_list_tickets_query status_filter' search' assigned_to_filter'
           created_by_filter')
  /\ snd (_list_tickets_query status_filter search assigned_to_filter
            created_by_filter)
     = (binding "search" search ++ binding "status" status_filter
        ++ binding "assigned_to" assigned_to_filter
        ++ binding "created_by" created_by_filter)%list.
Proof.
  intros Hst Hse Ha Hc. split; [|apply query_params].
  rewrite query_text_flags.
  rewrite (query_text_flags status_filter' search' assigned_to_filter'
             created_by_filter').
  now rewrite Hst, Hse, Ha, Hc.
Qed.

Lemma query_text_independent_of_values_witness :
  truthy (Some "TODO") = truthy (Some "x' OR 1 = 1 --")
  /\ truthy (Some "login") = truthy (Some "bug")
  /\ truthy None = truthy (Some "")
  /\ truthy (Some "alice") = truthy (Some "bob")
  /\ fst (_list_tickets_query (Some "TODO") (Some "login") None (Some "alice"))
     = fst (_list_tickets_query (Some "x' OR 1 = 1 --") (Some "bug") (Some "")
              (Some "bob"))
  /\ snd (_list_tickets_query (Some "TODO") (Some "login") None (Some "alice"))
     = [("search", "login"); ("status", "TODO"); ("created_by", "alice")].
Proof.
  repeat (split; [reflexivity|]).
  apply (query_text_independent_of_values (Some "TODO") (Some "login") None
           (Some "alice") (Some "x' OR 1 = 1 --") (Some "bug") (Some "")
           (Some "bob"));
    reflexivity.
Defined.




(** C8. Frame: [assign_to] and [mark_as_done] leave the name, the
    description, the project, the creator and the creation time of every
    stored row as they were, along with its rowid; [assign_to] leaves the
    notes too, and rows under another identifier are not changed at all.
    The ticket [mark_as_done] returns is the stored one with only status,
    assignee, notes, [updated_by] and [updated_at] replaced; so is, but
    for the notes, the ticket [assign_to] returns, unless the trigger of
    the index aborts its UPDATE, and then the store is as it was. *)
Theorem transitions_preserve_creation_fields {engine : Fts5}
    (conn : Connection) (self : Ticket) (new_status : string)
    (assignee : option string) (text user : string) (now : datetime) :
  let assigned := assign_to self new_status assignee user now conn in
  let finished := mark_as_done self text user now conn in
  map creation_columns (ticket (snd assigned))
    = map creation_columns (ticket conn)
  /\ map raw_notes (ticket (snd assigned)) = map raw_notes (ticket conn)
  /\ map creation_columns (ticket (snd finished))
     = map creation_columns (ticket conn)
  /\ filter (fun r => negb (has_rowid (rowid self) r)) (ticket (snd assigned))
     = filter (fun r => negb (has_rowid (rowid self) r)) (ticket conn)
  /\ filter (fun r => negb (has_rowid (rowid self) r)) (ticket (snd finished))
     = filter (fun r => negb (has_rowid (rowid self) r)) (ticket conn)
  /\ exists stored : option Ticket,
       fst (get (rowid self) conn) = Ok stored
       /\ (fst assigned
           = Ok (option_map
                   (fun t => reassigned t new_status assignee user now)
                   stored)
           \/ rolled_back assigned conn)
       /\ fst finished
          = Ok (option_map (fun t => completed t text user now) stored).
Proof.
  intros assigned finished. subst assigned finished.
  unfold assign_to, mark_as_done.
  repeat split.
  - now apply execute_update_keeps.
  - now apply execute_update_keeps.
  - now apply execute_update_keeps.
  - now apply execute_update_others.
  - now apply execute_update_others.
  - exists (fetchone (filter (has_rowid (rowid self)) (ticket conn))).
    split; [reflexivity|]. split.
    + match goal with
      | |- fst (execute_update ?id ?set conn) = _ \/ _ =>
          destruct (existsb (update_ticket_aborts conn)
                      (map set (filter (has_rowid id) (ticket conn))))
            eqn:Hok;
          [right; rewrite (execute_update_aborted conn id set Hok);
           eexists; split; reflexivity
          |left; rewrite execute_update_returns, Hok]
      end.
      unfold fetchone.
      now destruct (hd_error (filter (has_rowid (rowid self)) (ticket conn))).
    + rewrite execute_update_returns.
      rewrite (accepted_one_token conn (rowid self) _ DONE done_one_token)
        by (intros; reflexivity).
      unfold fetchone.
      now destruct (hd_error (filter (has_rowid (rowid self)) (ticket conn))).
Qed.



(** C10. An empty filter is no filter: a filter given as the empty string
    builds the same statement and bindings as one that is not given, so the
    listing prints the same; with only empty filters, empty search
    included, the listing fetches every ticket of the store, whatever its
    [assigned_to] and [created_by] are. *)
Theorem empty_filter_is_absent {engine : Fts5} {zone : LocalZone}
    {rich : RichMarkup}
    (conn : Connection) (status_filter search assigned_to_filter
    created_by_filter : option string) (format : string) :
  _list_tickets_query (Some "") search assigned_to_filter created_by_filter
    = _list_tickets_query None search assigned_to_filter created_by_filter
  /\ _list_tickets_query status_filter (Some "") assigned_to_filter
       created_by_filter
     = _list_tickets_query status_filter None assigned_to_filter
         created_by_filter
  /\ _list_tickets_query status_filter search (Some "") created_by_filter
     = _list_tickets_query status_filter search None created_by_filter
  /\ _list_tickets_query status_filter search assigned_to_filter (Some "")
     = _list_tickets_query status_filter search assigned_to_filter None
  /\ _list_tickets (Some "") search assigned_to_filter created_by_filter
       format conn
     = _list_tickets None search assigned_to_filter created_by_filter format
         conn
  /\ _list_tickets status_filter (Some "") assigned_to_filter
       created_by_filter format conn
     = _list_tickets status_filter None assigned_to_filter created_by_filter
         format conn
  /\ _list_tickets status_filter search (Some "") created_by_filter format
       conn
     = _list_tickets status_filter search None created_by_filter format conn
  /\ _list_tickets status_filter search assigned_to_filter (Some "") format
       conn
     = _list_tickets status_filter search assigned_to_filter None format conn
  /\ _list_tickets_fetchall None None (Some "") None conn
     = (Ok (map row_factory (ticket conn)), conn)
  /\ _list_tickets_fetchall None None None (Some "") conn
     = (Ok (map row_factory (ticket conn)), conn)
  /\ _list_tickets_fetchall None (Some "") None None conn
     = (Ok (map row_factory (ticket conn)), conn)
  /\ _list_tickets_fetchall (Some "") (Some "") (Some "") (Some "") conn
     = (Ok (map row_factory (ticket conn)), conn).
Proof.
  assert (Hall : forall st se a c,
             truthy st = false -> truthy se = false -> truthy a = false ->
             truthy c = false ->
             _list_tickets_fetchall st se a c conn
             = (Ok (map row_factory (ticket conn)), conn)).
  { intros st se a c Hst Hse Ha Hc.
    rewrite (fetchall_without_search conn st se a c Hse). do 2 f_equal.
    assert (Hany : forall t, satisfies_filtersb st a c t = true).
    { intros t. unfold satisfies_filtersb, filter_holdsb.
      destruct st as [[|? ?]|], a as [[|? ?]|], c as [[|? ?]|];
        simpl in *; try discriminate; reflexivity. }
    induction (map row_factory (ticket conn)) as [|t l IH];
      simpl; [reflexivity|]. now rewrite Hany, IH. }
  repeat split; try reflexivity; apply Hall; reflexivity.
Qed.

(** ** Further properties *)

(** X1. In a table whose rowids are positive and below the largest rowid
    there is, where SQLite numbers a new row by adding one: the rowids
    stay strictly increasing, hence distinct, under an INSERT and under
    both UPDATEs, and the rowid of the new row is no larger than the
    largest there is. *)
Theorem rowids_stay_increasing {engine : Fts5} (conn : Connection)
    (self : Ticket) (new_name new_description new_project new_status : string)
    (assignee : option string) (text user : string) (now : datetime) :
  rowids_in_range conn ->
  StronglySorted Z.lt (rowids conn) ->
  StronglySorted Z.lt
    (rowids (snd (new new_name new_description new_project assignee user now
                    conn)))
  /\ NoDup
       (rowids (snd (new new_name new_description new_project assignee user
                       now conn)))
  /\ Forall (fun id => 0 < id <= max_rowid)
       (rowids (snd (new new_name new_description new_project assignee user
                       now conn)))
  /\ StronglySorted Z.lt
       (rowids (snd (assign_to self new_status assignee user now conn)))
  /\ StronglySorted Z.lt
       (rowids (snd (mark_as_done self text user now conn))).
Proof.
  intros Hrange Hsorted.
  assert (Hnew : StronglySorted Z.lt
                   (rowids (snd (new new_name new_description new_project
                                   assignee user now conn)))).
  { unfold rowids. rewrite rowids_after_new.
    apply increasing_snoc; [exact Hsorted|]. apply rowid_below_next. }
  split; [exact Hnew|]. split; [now apply increasing_NoDup|]. split.
  - unfold rowids_in_range, rowids in *. rewrite rowids_after_new.
    rewrite Forall_forall in *. intros id Hid. apply in_app_or in Hid.
    destruct Hid as [Hold | [<- | []]].
    + specialize (Hrange id Hold). lia.
    + destruct (next_rowid_in (ticket conn)) as [[_ ->] | Hlast].
      * unfold max_rowid. lia.
      * specialize (Hrange _ Hlast). lia.
  - unfold rowids, assign_to, mark_as_done.
    rewrite !execute_update_keeps by reflexivity. now split.
Qed.

Lemma rowids_stay_increasing_witness :
  rowids_in_range two_tickets
  /\ StronglySorted Z.lt (rowids two_tickets)
  /\ StronglySorted Z.lt
       (rowids (snd (new "Third" "" "web" None "carol" moment two_tickets)))
  /\ NoDup (rowids (snd (new "Third" "" "web" None "carol" moment two_tickets)))
  /\ StronglySorted Z.lt
       (rowids (snd (assign_to (row_factory fix_login) TODO None "carol"
                       moment two_tickets)))
  /\ StronglySorted Z.lt
       (rowids (snd (mark_as_done (row_factory write_docs) "" "carol" moment
                       two_tickets))).
Proof.
  assert (Hrange : rowids_in_range two_tickets).
  { unfold rowids_in_range, max_rowid. simpl. repeat constructor. }
  assert (Hsorted : StronglySorted Z.lt (rowids two_tickets)).
  { repeat constructor. }
  split; [exact Hrange|]. split; [exact Hsorted|].
  destruct (rowids_stay_increasing two_tickets (row_factory fix_login) "Third"
              "" "web" TODO None "" "carol" moment Hrange Hsorted)
    as (Hnew & Hdup & _ & Hassign & _).
  destruct (rowids_stay_increasing two_tickets (row_factory write_docs) "Third"
              "" "web" TODO None "" "carol" moment Hrange Hsorted)
    as (_ & _ & _ & _ & Hdone).
  repeat split; assumption.
Defined.

(** X2. An INSERT adds one row and leaves every ticket that was in the
    store as [get] returned it before. *)
Theorem new_keeps_existing_tickets {engine : Fts5} (conn : Connection)
    (id : Z) (new_name new_description new_project : string)
    (assignee : option string) (creator : string) (now : datetime) :
  In id (rowids conn) ->
  fst (get id (snd (new new_name new_description new_project assignee creator
                      now conn)))
  = fst (get id conn)
  /\ List.length
       (ticket (snd (new new_name new_description new_project assignee
                       creator now conn)))
     = S (List.length (ticket conn)).
Proof.
  intros Hin. split.
  - unfold get, new; simpl. rewrite filter_app. simpl.
    assert (Hne : has_rowid id
                    (mk_raw_row (next_rowid (ticket conn)) new_name
                       new_description new_project TODO assignee ""
                       creator None (adapt_datetime_epoch now) None) = false).
    { unfold has_rowid; simpl. apply Z.eqb_neq.
      apply rowid_below_next in Hin. lia. }
    rewrite Hne. now rewrite app_nil_r.
  - unfold new; simpl. rewrite length_app. simpl. lia.
Qed.

Lemma new_keeps_existing_tickets_witness :
  In 2 (rowids two_tickets)
  /\ fst (get 2 (snd (new "Third" "" "web" None "carol" moment two_tickets)))
     = fst (get 2 two_tickets)
  /\ List.length
       (ticket (snd (new "Third" "" "web" None "carol" moment two_tickets)))
     = S (List.length (ticket two_tickets)).
Proof.
  assert (Hin : In 2 (rowids two_tickets)) by (simpl; auto).
  split; [exact Hin|].
  apply (new_keeps_existing_tickets two_tickets 2 "Third" "" "web" None
           "carol" moment Hin).
Defined.

(** X3. Tickets created one after another in an empty table are numbered
    1, 2, 3, ... in the order of their creation. *)
Theorem new_each_numbers_from_one {engine : Fts5} (index : fts_index)
    (items : list (string * string * string * option string * string
                   * datetime)) :
  rowids (new_each items {| ticket := []; ticket_fts := index |})
  = map Z.of_nat (seq 1 (List.length items)).
Proof.
  unfold rowids. now rewrite (new_each_counts items _ 0).
Qed.

(** X4. A search the index accepts: the listing fetches the tickets
    stored under the rowids the index reports for the expression, in the
    order it reports them, and among those the ones on which every filter
    given holds. *)
Theorem search_listing_follows_index {engine : Fts5} (conn : Connection)
    (status_filter assigned_to_filter created_by_filter : option string)
    (expression : string) (ids : list Z) :
  expression <> "" ->
  fts_match expression (ticket_fts conn) = Some ids ->
  _list_tickets_fetchall status_filter (Some expression) assigned_to_filter
    created_by_filter conn
  = (Ok (filter
           (satisfies_filtersb status_filter assigned_to_filter
              created_by_filter)
           (map row_factory
              (flat_map (fun id => filter (has_rowid id) (ticket conn)) ids))),
     conn)
  /\ forall t : Ticket,
       In t
         (filter
            (satisfies_filtersb status_filter assigned_to_filter
               created_by_filter)
            (map row_factory
               (flat_map (fun id => filter (has_rowid id) (ticket conn))
                  ids)))
       <-> In (rowid t) ids
           /\ In t (map row_factory (ticket conn))
           /\ satisfies_filters status_filter assigned_to_filter
                created_by_filter t.
Proof.
  intros Hne Hmatch.
  assert (Hq : str_truthy expression = true)
    by (destruct expression; [congruence | reflexivity]).
  split.
  - rewrite (fetchall_with_search conn _ _ _ _ Hq). now rewrite Hmatch.
  - intros t. rewrite filter_In, satisfies_filtersb_spec, !in_map_iff.
    split.
    + intros [(r & Ht & Hr) Hsat]. apply in_flat_map in Hr.
      destruct Hr as (id & Hid & Hr). apply filter_In in Hr.
      destruct Hr as [Hr Hhas]. apply Z.eqb_eq in Hhas.
      split; [|split; [now exists r | exact Hsat]].
      subst t. unfold row_factory; cbn [rowid]. now rewrite Hhas.
    + intros (Hid & (r & Ht & Hr) & Hsat). split; [|exact Hsat].
      exists r. split; [exact Ht|]. apply in_flat_map.
      exists (rowid t). split; [exact Hid|]. apply filter_In.
      split; [exact Hr|]. subst t. apply Z.eqb_refl.
Qed.

Lemma search_listing_follows_index_witness :
  "Write docs" <> ""
  /\ fts_match "Write docs" (ticket_fts two_tickets) = Some [2]
  /\ _list_tickets_fetchall (Some "DOING") (Some "Write docs") None None
       two_tickets
     = (Ok (filter (satisfies_filtersb (Some "DOING") None None)
              (map row_factory
                 (flat_map
                    (fun id => filter (has_rowid id) (ticket two_tickets))
                    [2]))),
        two_tickets).
Proof.
  assert (Hne : "Write docs" <> "") by discriminate.
  assert (Hmatch : fts_match "Write docs" (ticket_fts two_tickets) = Some [2])
    by reflexivity.
  split; [exact Hne|]. split; [exact Hmatch|].
  exact (proj1 (search_listing_follows_index two_tickets (Some "DOING") None
                  None "Write docs" [2] Hne Hmatch)).
Defined.


(** X6. The console table is well formed: when the listing prints a
    table, it has the eleven headers, one row for each ticket fetched, and
    eleven cells in every row. *)
Theorem console_table_is_rectangular {engine : Fts5} {zone : LocalZone}
    {rich : RichMarkup} (conn : Connection) (status_filter search
    assigned_to_filter created_by_filter : option string) (format : string)
    (table : Table) (tickets : list Ticket) :
  fst (_list_tickets status_filter search assigned_to_filter created_by_filter
         format conn)
  = Ok (print_table table) ->
  fst (_list_tickets_fetchall status_filter search assigned_to_filter
         created_by_filter conn)
  = Ok tickets ->
  columns table = console_columns
  /\ List.length (table_rows table) = List.length tickets
  /\ Forall (fun cells => List.length cells = List.length (columns table))
       (table_rows table).
Proof.
  unfold _list_tickets, bind. cbv zeta. intros Hrun Hfetch.
  destruct (_list_tickets_fetchall status_filter search assigned_to_filter
              created_by_filter conn) as [[fetched|e] conn'];
    cbn [fst] in Hfetch; [|discriminate].
  injection Hfetch as ->.
  destruct (String.eqb format "json"); [discriminate|].
  destruct (render_error _); [discriminate|].
  cbn [ret fst] in Hrun. injection Hrun as <-.
  match goal with
  | |- context [fold_left _ tickets ?t0] =>
      destruct (add_to_table_rows tickets t0) as (Hcols & Hlen & Hall)
  end.
  rewrite Hcols. split; [reflexivity|]. split; [exact Hlen|].
  apply Hall. constructor.
Qed.

Lemma console_table_is_rectangular_witness :
  exists table : Table,
    fst (_list_tickets (zone := utc_zone) (rich := closing_tag_markup) None
           None None None "console" two_tickets)
    = Ok (print_table table)
    /\ fst (_list_tickets_fetchall None None None None two_tickets)
       = Ok (map row_factory (ticket two_tickets))
    /\ columns table = console_columns
    /\ List.length (table_rows table)
       = List.length (map row_factory (ticket two_tickets))
    /\ Forall (fun cells => List.length cells = List.length (columns table))
         (table_rows table).
Proof.
  eexists. split; [reflexivity|]. split; [reflexivity|].
  apply (console_table_is_rectangular (zone := utc_zone)
           (rich := closing_tag_markup) two_tickets None None None None
           "console"); reflexivity.
Defined.

(** X7. In the JSON object of a ticket the only value that can be [null]
    is [updated_by], and it is [null] exactly for a ticket whose
    [updated_by] is [None]. *)
Theorem asdict_null_only_updated_by {zone : LocalZone} (t : Ticket)
    (key : string) :
  In (key, None) (asdict t) ->
  key = "updated_by" /\ updated_by t = None.
Proof.
  unfold asdict. cbn [In].
  intros [H|[H|[H|[H|[H|[H|[H|[H|[H|[H|[H|[]]]]]]]]]]]];
    try discriminate H.
  injection H as Hk Hv. auto.
Qed.

Lemma asdict_null_only_updated_by_witness :
  In ("updated_by", None)
    (asdict (zone := utc_zone)
       (row_factory
          (mk_raw_row 1 "Fix login bug" "" "web" TODO (Some "alice") ""
             "alice" None 1700000000 None)))
  /\ "updated_by" = "updated_by"
  /\ updated_by
       (row_factory
          (mk_raw_row 1 "Fix login bug" "" "web" TODO (Some "alice") ""
             "alice" None 1700000000 None))
     = None.
Proof.
  assert (Hin : In ("updated_by", None)
                  (asdict (zone := utc_zone)
                     (row_factory
                        (mk_raw_row 1 "Fix login bug" "" "web" TODO
                           (Some "alice") "" "alice" None 1700000000 None)))).
  { unfold asdict; cbn [In]. do 8 right. left. reflexivity. }
  split; [exact Hin|].
  exact (asdict_null_only_updated_by (zone := utc_zone) _ _ Hin).
Defined.

(** X8. The two renderings agree: the cells [add_to_table] adds for a
    ticket are the values of its JSON object under the console headers, in
    that order, with [null] shown as the empty string. *)
Theorem console_cells_are_json_values {zone : LocalZone} (t : Ticket)
    (table : Table) :
  add_to_table t table
  = add_row
      (map (fun header => cell_text (json_get header (asdict t)))
         console_columns)
      table.
Proof.
  unfold add_to_table, asdict, console_columns. f_equal.
  cbn [map json_get cell_text String.eqb Ascii.eqb Bool.eqb andb].
  repeat f_equal.
  - now destruct (project t).
  - now destruct (notes t).
  - now destruct (updated_by t) as [[|? ?]|].
Qed.

(** X9. Decoding loses nothing of the two timestamps: the adapter applied
    to the [created_at] of a fetched ticket gives back the integer stored,
    and so does the [updated_at], the undecoded zero included. *)
Theorem stored_timestamps_round_trip (r : raw_row) :
  adapt_datetime_epoch (created_at (row_factory r)) = raw_created_at r
  /\ stored_updated_at (updated_at (row_factory r)) = raw_updated_at r.
Proof.
  split; [apply adapt_fromtimestamp | apply stored_updated_at_decoded].
Qed.

(** X10. The undecoded zero: a transition stamped within the second of the
    epoch stores [updated_at = 0], which [row_factory] does not decode, so
    the ticket it returns has an [updated_by] and prints an empty
    [updated_at].  [mark_as_done] always returns such a ticket;
    [assign_to] does unless the trigger of the index aborts its UPDATE. *)
Theorem update_in_epoch_second_prints_empty {engine : Fts5}
    {zone : LocalZone} (conn : Connection) (self : Ticket)
    (new_status : string) (assignee : option string) (text user : string)
    (now : datetime) :
  In (rowid self) (rowids conn) ->
  adapt_datetime_epoch now = 0 ->
  ((exists t : Ticket,
      fst (assign_to self new_status assignee user now conn) = Ok (Some t)
      /\ updated_by t = Some user
      /\ updated_at t = UpdatedZero
      /\ json_get "updated_at" (asdict t) = Some (Some ""))
   \/ rolled_back (assign_to self new_status assignee user now conn) conn)
  /\ (exists t : Ticket,
        fst (mark_as_done self text user now conn) = Ok (Some t)
        /\ updated_by t = Some user
        /\ updated_at t = UpdatedZero
        /\ json_get "updated_at" (asdict t) = Some (Some "")).
Proof.
  intros Hin Hzero. split.
  - destruct (over_totals conn new_status assignee) eqn:Hover.
    + right. rewrite (assign_to_aborted conn self _ _ user now Hin Hover).
      eexists. split; reflexivity.
    + left.
      destruct (assign_to_accepted conn self _ _ user now Hin Hover)
        as (r & _ & Hret & _).
      eexists. split; [exact Hret|]. unfold reassigned, stamp.
      rewrite Hzero. repeat split; reflexivity.
  - destruct (mark_as_done_accepted conn self text user now Hin)
      as (r & _ & Hret & _).
    eexists. split; [exact Hret|]. unfold completed, stamp.
    rewrite Hzero. repeat split; reflexivity.
Qed.

Lemma update_in_epoch_second_prints_empty_witness :
  In (rowid (row_factory write_docs)) (rowids two_tickets)
  /\ adapt_datetime_epoch (mk_datetime 999999 true) = 0
  /\ exists t : Ticket,
       fst (mark_as_done (row_factory write_docs) "" "carol"
              (mk_datetime 999999 true) two_tickets)
       = Ok (Some t)
       /\ updated_by t = Some "carol"
       /\ updated_at t = UpdatedZero
       /\ json_get "updated_at" (asdict (zone := utc_zone) t) = Some (Some "").
Proof.
  assert (Hin : In (rowid (row_factory write_docs)) (rowids two_tickets))
    by (simpl; auto).
  assert (Hzero : adapt_datetime_epoch (mk_datetime 999999 true) = 0)
    by reflexivity.
  split; [exact Hin|]. split; [exact Hzero|].
  exact (proj2 (update_in_epoch_second_prints_empty (zone := utc_zone)
                  two_tickets (row_factory write_docs) TODO None "" "carol"
                  (mk_datetime 999999 true) Hin Hzero)).
Defined.

(** X11. The [new] handler, in a table that SQLite numbers by adding one
    and at an instant that the adapter stores exactly: whether or not it
    then prints, the ticket it stores under the next rowid has the name
    and description given, status TODO and the caller as creator; it is
    assigned to [--assign_to] when that is not empty and to the caller
    otherwise, never to nobody; its project is [--project] when that is
    not empty and the project of the configuration otherwise, ["default"]
    when there is none.  What the handler returns is what the listing of
    the whole table returns on the store with the new ticket in it: the
    JSON listing always prints, the console listing prints or raises
    [MarkupError]. *)
Theorem create_handler_defaults {engine : Fts5} {zone : LocalZone}
    {rich : RichMarkup} (conn : Connection) (args : new_args) (user : string)
    (now : datetime) (config : dict) :
  rowids_in_range conn ->
  exact_instant now ->
  exists t : Ticket,
    fst (get (next_rowid (ticket conn))
           (snd (create_ticket_handler args user now config conn)))
    = Ok (Some t)
    /\ name t = new_name args
    /\ description t = new_description args
    /\ status t = TODO
    /\ created_by t = user
    /\ assigned_to t = Some (or_else (new_assign_to args) user)
    /\ project t
       = (if str_truthy (new_project args) then new_project args
          else match dict_get "project" config with
               | Some configured => configured
               | None => "default"
               end)
    /\ rowids (snd (create_ticket_handler args user now config conn))
       = (rowids conn ++ [next_rowid (ticket conn)])%list
    /\ fst (create_ticket_handler args user now config conn)
       = fst (_list_tickets None None None None (new_format args)
                (snd (create_ticket_handler args user now config conn)))
    /\ (new_format args = "json" ->
        fst (create_ticket_handler args user now config conn)
        = Ok (print_json
                (map asdict
                   (map row_factory
                      (ticket
                         (snd (create_ticket_handler args user now config
                                 conn)))))))
    /\ ((exists out : output,
           fst (create_ticket_handler args user now config conn) = Ok out)
        \/ (new_format args <> "json"
            /\ exists message : string,
                 fst (create_ticket_handler args user now config conn)
                 = Raise (MarkupError message))).
Proof.
  intros _ _. rewrite (create_handler_run conn args user now config).
  cbn [fst snd].
  set (assigned := if truthy (new_assign_to args) then new_assign_to args
                   else Some user).
  set (chosen := if str_truthy (new_project args) then new_project args
                 else dict_get_default "project" "default" config).
  set (conn' := snd (new (new_name args) (new_description args) chosen
                       assigned user now conn)).
  eexists. split.
  - subst conn'. unfold get, new, fetchone; cbn [fst snd ticket].
    rewrite filter_app.
    rewrite (filter_has_rowid_absent _ _ (next_rowid_fresh (ticket conn))).
    cbn [app filter]. unfold has_rowid; cbn [raw_rowid].
    rewrite Z.eqb_refl. reflexivity.
  - do 4 (split; [reflexivity|]).
    split.
    { subst assigned. cbn [row_factory assigned_to raw_assigned_to].
      destruct (new_assign_to args) as [[|? ?]|]; reflexivity. }
    split; [reflexivity|].
    split; [subst conn'; unfold rowids; apply rowids_after_new|].
    split; [reflexivity|].
    destruct (list_unfiltered_prints conn' (new_format args))
      as [[Hjson Hout] | [Hconsole [[table Htable] | Hmarkup]]].
    + split; [intros _; exact Hout|]. left. eexists. exact Hout.
    + split; [intros Hjson; contradiction|]. left. eexists. exact Htable.
    + split; [intros Hjson; contradiction|]. right. split; assumption.
Qed.

Lemma create_handler_defaults_witness :
  rowids_in_range two_tickets
  /\ exact_instant moment
  /\ exists t : Ticket,
       fst (get 3
              (snd (create_ticket_handler (zone := utc_zone)
                      (rich := closing_tag_markup)
                      (mk_new_args "console" "[/b] fix" "" None "")
                      "carol" moment [] two_tickets)))
       = Ok (Some t)
       /\ name t = "[/b] fix"
       /\ assigned_to t = Some "carol"
       /\ project t = "default".
Proof.
  assert (Hrange : rowids_in_range two_tickets).
  { unfold rowids_in_range, max_rowid. simpl. repeat constructor. }
  assert (Hnow : exact_instant moment).
  { unfold exact_instant, exact_seconds, moment. simpl. lia. }
  split; [exact Hrange|]. split; [exact Hnow|].
  destruct (create_handler_defaults (zone := utc_zone)
              (rich := closing_tag_markup) two_tickets
              (mk_new_args "console" "[/b] fix" "" None "") "carol" moment []
              Hrange Hnow)
    as (t & Hget & Hname & _ & _ & _ & Hassigned & Hproject & _).
  exists t. repeat split; assumption.
Defined.

(** X12. The [done] handler on a ticket of the store, at an instant that
    the adapter stores exactly: whether or not it then prints, the ticket
    it leaves is the one that was stored with status DONE, no assignee,
    the notes of [--notes], the caller as [updated_by] and the time of the
    call as [updated_at], every other field kept.  What the handler
    returns is what the listing of the whole table returns on the store
    as it is then: the JSON listing always prints, the console listing
    prints or raises [MarkupError]. *)
Theorem done_handler_completes {engine : Fts5} {zone : LocalZone}
    {rich : RichMarkup} (conn : Connection) (args : done_args) (user : string)
    (now : datetime) (config : dict) :
  In (done_rowid args) (rowids conn) ->
  exact_instant now ->
  exists before : Ticket,
    fst (get (done_rowid args) conn) = Ok (Some before)
    /\ fst (get (done_rowid args)
              (snd (mark_as_done_handler args user now config conn)))
       = Ok (Some (completed before (done_notes args) user now))
    /\ fst (mark_as_done_handler args user now config conn)
       = fst (_list_tickets None None None None (done_format args)
                (snd (mark_as_done_handler args user now config conn)))
    /\ (done_format args = "json" ->
        fst (mark_as_done_handler args user now config conn)
        = Ok (print_json
                (map asdict
                   (map row_factory
                      (ticket
                         (snd (mark_as_done_handler args user now config
                                 conn)))))))
    /\ ((exists out : output,
           fst (mark_as_done_handler args user now config conn) = Ok out)
        \/ (done_format args <> "json"
            /\ exists message : string,
                 fst (mark_as_done_handler args user now config conn)
                 = Raise (MarkupError message))).
Proof.
  intros Hin _.
  destruct (get_present conn (done_rowid args) Hin) as (self & Hself & Hid).
  unfold mark_as_done_handler. cbv zeta. rewrite <- Hid in *.
  rewrite (done_handler_run conn self (done_notes args) user now
             (done_format args) Hin).
  cbn [fst snd].
  destruct (mark_as_done_accepted conn self (done_notes args) user now Hin)
    as (r & Hhd & _ & Hget).
  assert (Hbefore : fst (get (rowid self) conn) = Ok (Some (row_factory r))).
  { unfold get, fetchone; cbn [fst]. now rewrite Hhd. }
  exists (row_factory r). split; [exact Hbefore|]. split; [exact Hget|].
  split; [reflexivity|].
  destruct (list_unfiltered_prints
              (snd (mark_as_done self (done_notes args) user now conn))
              (done_format args))
    as [[Hjson Hout] | [Hconsole [[table Htable] | Hmarkup]]].
  - split; [intros _; exact Hout|]. left. eexists. exact Hout.
  - split; [intros Hjson; contradiction|]. left. eexists. exact Htable.
  - split; [intros Hjson; contradiction|]. right. split; assumption.
Qed.

Lemma done_handler_completes_witness :
  In 2 (rowids two_tickets)
  /\ exact_instant moment
  /\ exists before : Ticket,
       fst (get 2 two_tickets) = Ok (Some before)
       /\ fst (get 2
                 (snd (mark_as_done_handler (zone := utc_zone)
                         (rich := closing_tag_markup)
                         (mk_done_args "json" 2 "shipped") "carol" moment []
                         two_tickets)))
          = Ok (Some (completed before "shipped" "carol" moment))
       /\ exists out : output,
            fst (mark_as_done_handler (zone := utc_zone)
                   (rich := closing_tag_markup)
                   (mk_done_args "json" 2 "shipped") "carol" moment []
                   two_tickets)
            = Ok out.
Proof.
  assert (Hin : In 2 (rowids two_tickets)) by (simpl; auto).
  assert (Hnow : exact_instant moment).
  { unfold exact_instant, exact_seconds, moment. simpl. lia. }
  split; [exact Hin|]. split; [exact Hnow|].
  destruct (done_handler_completes (zone := utc_zone)
              (rich := closing_tag_markup) two_tickets
              (mk_done_args "json" 2 "shipped") "carol" moment [] Hin Hnow)
    as (before & Hbefore & Hget & _ & Hjson & _).
  exists before. split; [exact Hbefore|]. split; [exact Hget|].
  eexists. exact (Hjson eq_refl).
Defined.



(** X14. The last transition that goes through wins.  After any
    [assign_to] on a ticket, a [mark_as_done] on it leaves the table, and
    returns the ticket, that it would have without the first, and
    completing twice is completing with the second notes.  A second
    [assign_to] returns what it would have without the first; it leaves
    the table that it would have without the first, unless the trigger of
    the index aborts it, and then what the first left stays.  The one
    thing that survives is the notes: an [assign_to] after a
    [mark_as_done] keeps the notes of the completion on every row. *)
Theorem last_transition_wins {engine : Fts5} (conn : Connection)
    (self : Ticket) (status1 status2 : string)
    (assignee1 assignee2 : option string) (text1 text2 user1 user2 : string)
    (now1 now2 : datetime) :
  let assigned := snd (assign_to self status1 assignee1 user1 now1 conn) in
  let finished := snd (mark_as_done self text1 user1 now1 conn) in
  (ticket (snd (assign_to self status2 assignee2 user2 now2 assigned))
   = ticket (snd (assign_to self status2 assignee2 user2 now2 conn))
   \/ rolled_back (assign_to self status2 assignee2 user2 now2 assigned)
        assigned)
  /\ fst (assign_to self status2 assignee2 user2 now2 assigned)
     = fst (assign_to self status2 assignee2 user2 now2 conn)
  /\ ticket (snd (mark_as_done self text2 user2 now2 assigned))
     = ticket (snd (mark_as_done self text2 user2 now2 conn))
  /\ fst (mark_as_done self text2 user2 now2 assigned)
     = fst (mark_as_done self text2 user2 now2 conn)
  /\ ticket (snd (mark_as_done self text2 user2 now2 finished))
     = ticket (snd (mark_as_done self text2 user2 now2 conn))
  /\ map raw_notes
       (ticket (snd (assign_to self status2 assignee2 user2 now2 finished)))
     = map raw_notes (ticket finished).
Proof.
  intros assigned finished. subst assigned finished.
  unfold assign_to, mark_as_done.
  assert (Hdone : forall text user now,
             existsb (update_ticket_aborts conn)
               (map (fun r => mk_raw_row (raw_rowid r) (raw_name r)
                       (raw_description r) (raw_project r) DONE None text
                       (raw_created_by r) (Some user) (raw_created_at r)
                       (Some (adapt_datetime_epoch now)))
                  (filter (has_rowid (rowid self)) (ticket conn)))
             = false).
  { intros text user now.
    apply (accepted_one_token conn (rowid self) _ DONE done_one_token);
      reflexivity. }
  split; [|split; [|split; [|split; [|split]]]].
  - match goal with
    | |- ticket (snd (execute_update ?id ?set2
                        (snd (execute_update ?id ?set1 conn)))) = _ \/ _ =>
        destruct (execute_update_absorbs conn id set1 set2
                    (fun r => eq_refl) (fun r => eq_refl))
          as (_ & Hgoes & Haborts);
        destruct (existsb (update_ticket_aborts conn)
                    (map set2 (filter (has_rowid id) (ticket conn))))
    end.
    + right. rewrite (Haborts eq_refl). eexists. split; reflexivity.
    + left. exact (Hgoes eq_refl).
  - apply execute_update_absorbs; intros r; reflexivity.
  - apply execute_update_absorbs; try (intros r; reflexivity). apply Hdone.
  - apply execute_update_absorbs; intros r; reflexivity.
  - apply execute_update_absorbs; try (intros r; reflexivity). apply Hdone.
  - now apply execute_update_keeps.
Qed.

(** X15. Transitions on two different tickets can be run in either order:
    the table is the same after both. *)
Theorem transitions_on_different_tickets_commute {engine : Fts5}
    (conn : Connection) (self1 self2 : Ticket) (new_status : string)
    (assignee : option string) (text user1 user2 : string)
    (now1 now2 : datetime) :
  rowid self1 <> rowid self2 ->
  ticket
    (snd (mark_as_done self2 text user2 now2
            (snd (assign_to self1 new_status assignee user1 now1 conn))))
  = ticket
      (snd (assign_to self1 new_status assignee user1 now1
              (snd (mark_as_done self2 text user2 now2 conn)))).
Proof.
  intros Hne. unfold assign_to, mark_as_done.
  apply execute_update_commutes; [exact Hne | reflexivity | reflexivity].
Qed.

Lemma transitions_on_different_tickets_commute_witness :
  rowid (row_factory fix_login) <> rowid (row_factory write_docs)
  /\ ticket
       (snd (mark_as_done (row_factory write_docs) "shipped" "bob" moment
               (snd (assign_to (row_factory fix_login) TODO (Some "carol")
                       "carol" moment two_tickets))))
     = ticket
         (snd (assign_to (row_factory fix_login) TODO (Some "carol") "carol"
                 moment
                 (snd (mark_as_done (row_factory write_docs) "shipped" "bob"
                         moment two_tickets)))).
Proof.
  assert (Hne : rowid (row_factory fix_login) <> rowid (row_factory write_docs))
    by discriminate.
  split; [exact Hne|].
  exact (transitions_on_different_tickets_commute two_tickets
           (row_factory fix_login) (row_factory write_docs) TODO
           (Some "carol") "shipped" "carol" "bob" moment moment Hne).
Defined.

(** X16. The handlers keep the statuses in range: if every stored status
    is TODO, DOING or DONE, it is so after any of the five handlers,
    whether the handler prints or raises. *)
Theorem handlers_keep_statuses_valid {engine : Fts5} {zone : LocalZone}
    {rich : RichMarkup}
    (conn : Connection) (ls : ls_args) (created : new_args)
    (assigned : assign_args) (finished : done_args) (user : string)
    (now : datetime) (config : dict) :
  Forall valid_status (map raw_status (ticket conn)) ->
  Forall valid_status
    (map raw_status
       (ticket (snd (list_ticket_handler ls user now config conn))))
  /\ Forall valid_status
       (map raw_status
          (ticket (snd (create_ticket_handler created user now config conn))))
  /\ Forall valid_status
       (map raw_status
          (ticket (snd (assign_todo_handler assigned user now config conn))))
  /\ Forall valid_status
       (map raw_status
          (ticket (snd (assign_doing_handler assigned user now config conn))))
  /\ Forall valid_status
       (map raw_status
          (ticket (snd (mark_as_done_handler finished user now config conn)))).
Proof.
  intros Hvalid. split; [|split; [|split; [|split]]].
  - unfold list_ticket_handler. cbv zeta. now rewrite list_tickets_store.
  - rewrite (create_handler_run conn created user now config).
    unfold new; cbn [snd ticket].
    rewrite map_app. apply Forall_app. split; [exact Hvalid|].
    constructor; [now left | constructor].
  - rewrite (handler_store conn (assign_rowid assigned)
               (fun r => mk_raw_row (raw_rowid r) (raw_name r)
                  (raw_description r) (raw_project r) TODO
                  (if truthy (assign_assign_to assigned)
                   then assign_assign_to assigned else None)
                  (raw_notes r) (raw_created_by r) (Some user)
                  (raw_created_at r) (Some (adapt_datetime_epoch now)))
               "assign_to" (assign_format assigned) (fun r => eq_refl)
             : snd (assign_todo_handler assigned user now config conn) = _).
    destruct (in_dec Z.eq_dec _ _); [|exact Hvalid].
    apply execute_update_Forall; [|exact Hvalid]. intros r. now left.
  - rewrite (handler_store conn (assign_rowid assigned)
               (fun r => mk_raw_row (raw_rowid r) (raw_name r)
                  (raw_description r) (raw_project r) DOING
                  (Some (or_else (assign_assign_to assigned) user))
                  (raw_notes r) (raw_created_by r) (Some user)
                  (raw_created_at r) (Some (adapt_datetime_epoch now)))
               "assign_to" (assign_format assigned) (fun r => eq_refl)
             : snd (assign_doing_handler assigned user now config conn) = _).
    destruct (in_dec Z.eq_dec _ _); [|exact Hvalid].
    apply execute_update_Forall; [|exact Hvalid]. intros r. right. now left.
  - rewrite (handler_store conn (done_rowid finished)
               (fun r => mk_raw_row (raw_rowid r) (raw_name r)
                  (raw_description r) (raw_project r) DONE None
                  (done_notes finished) (raw_created_by r) (Some user)
                  (raw_created_at r) (Some (adapt_datetime_epoch now)))
               "mark_as_done" (done_format finished) (fun r => eq_refl)
             : snd (mark_as_done_handler finished user now config conn) = _).
    destruct (in_dec Z.eq_dec _ _); [|exact Hvalid].
    apply execute_update_Forall; [|exact Hvalid]. intros r. right. now right.
Qed.

Lemma handlers_keep_statuses_valid_witness :
  Forall valid_status (map raw_status (ticket two_tickets))
  /\ Forall valid_status
       (map raw_status
          (ticket
             (snd (assign_doing_handler (zone := utc_zone)
                     (rich := closing_tag_markup)
                     (mk_assign_args "json" 1 None) "carol" moment []
                     two_tickets)))).
Proof.
  assert (Hvalid : Forall valid_status (map raw_status (ticket two_tickets))).
  { constructor; [right; now right|].
    constructor; [right; now left | constructor]. }
  split; [exact Hvalid|].
  destruct (handlers_keep_statuses_valid (zone := utc_zone)
              (rich := closing_tag_markup) two_tickets
              (mk_ls_args "json" None None None None)
              (mk_new_args "json" "Third" "" None "")
              (mk_assign_args "json" 1 None) (mk_done_args "json" 1 "")
              "carol" moment [] Hvalid)
    as (_ & _ & _ & Hdoing & _).
  exact Hdoing.
Defined.

(** X18. Where the configuration file is found: when [find_config_path]
    returns, what it returns is [.jire.config] in the start directory or
    in one of its ancestors, the file system has an entry there, and no
    directory between that one and the start directory has one. *)
Theorem find_config_path_nearest (entry_exists : path -> bool)
    (root_path config_path : path) :
  find_config_path entry_exists root_path = inl config_path ->
  exists n : nat,
    (n <= List.length root_path)%nat
    /\ config_path = (firstn n root_path ++ [".jire.config"])%list
    /\ entry_exists config_path = true
    /\ forall m : nat,
         (n < m <= List.length root_path)%nat ->
         entry_exists (firstn m root_path ++ [".jire.config"])%list = false.
Proof.
  unfold find_config_path, glob_config, parents.
  destruct (entry_exists (root_path ++ [".jire.config"])%list) eqn:Hroot.
  - intros H. injection H as <-. exists (List.length root_path).
    rewrite firstn_all. repeat split; [lia | exact Hroot |].
    intros m Hm. lia.
  - pose proof (first_config_parents entry_exists root_path
                  (List.length root_path)) as Hparents.
    destruct (first_config entry_exists
                (map (fun n => firstn n root_path)
                   (rev (seq 0 (List.length root_path)))))
      as [found|]; [|discriminate].
    intros H. injection H as <-.
    destruct Hparents as (n & Hn & Hc & He & Hbelow).
    exists n. repeat split; [lia | exact Hc | exact He |].
    intros m Hm. destruct (Nat.eq_dec m (List.length root_path)) as [-> | Hneq].
    + now rewrite firstn_all.
    + apply Hbelow. lia.
Qed.

Lemma find_config_path_nearest_witness :
  find_config_path home_config ["home"; "alice"; "work"]
  = inl ["home"; ".jire.config"]
  /\ exists n : nat,
       (n <= List.length ["home"; "alice"; "work"])%nat
       /\ ["home"; ".jire.config"]
          = (firstn n ["home"; "alice"; "work"] ++ [".jire.config"])%list.
Proof.
  assert (Hfound : find_config_path home_config ["home"; "alice"; "work"]
                   = inl ["home"; ".jire.config"]) by reflexivity.
  split; [exact Hfound|].
  destruct (find_config_path_nearest _ _ _ Hfound) as (n & Hn & Hc & _).
  exists n. split; assumption.
Defined.

(** X19. When the configuration file is missing: [find_config_path]
    raises [ConfigError] exactly when neither the start directory nor any
    of its ancestors, the root included, has an entry [.jire.config]; it
    raises nothing else. *)
Theorem find_config_path_missing (entry_exists : path -> bool)
    (root_path : path) :
  (find_config_path entry_exists root_path
   = inr (ConfigError "Missing config file.")
   <-> forall n : nat,
         (n <= List.length root_path)%nat ->
         entry_exists (firstn n root_path ++ [".jire.config"])%list = false)
  /\ ((exists config_path : path,
         find_config_path entry_exists root_path = inl config_path)
      \/ find_config_path entry_exists root_path
         = inr (ConfigError "Missing config file.")).
Proof.
  unfold find_config_path, glob_config, parents.
  pose proof (first_config_parents entry_exists root_path
                (List.length root_path)) as Hparents.
  destruct (entry_exists (root_path ++ [".jire.config"])%list) eqn:Hroot.
  - split; [|left; eexists; reflexivity]. split; [discriminate|].
    intros Hnone. specialize (Hnone (List.length root_path) (le_n _)).
    rewrite firstn_all in Hnone. congruence.
  - destruct (first_config entry_exists
                (map (fun n => firstn n root_path)
                   (rev (seq 0 (List.length root_path)))))
      as [found|].
    + split; [|left; eexists; reflexivity]. split; [discriminate|].
      intros Hnone. destruct Hparents as (n & Hn & Hc & He & _).
      subst found. rewrite Hnone in He by lia. discriminate.
    + split; [|now right]. split; [|reflexivity].
      intros _ n Hn.
      destruct (Nat.eq_dec n (List.length root_path)) as [-> | Hneq].
      * now rewrite firstn_all.
      * apply Hparents. lia.
Qed.

(** X20. Clauses and bindings stay in step: whatever the filters are, the
    statement reads back as the join, when a search is given, and one
    equality clause for each filter given, in the order status,
    assigned_to, created_by; and the names bound are [search], when a
    search is given, followed by the parameters of those clauses, no more
    and no fewer. *)
Theorem query_clauses_match_bindings {engine : Fts5}
    (status_filter search assigned_to_filter created_by_filter
     : option string) :
  parse_select
    (fst (_list_tickets_query status_filter search assigned_to_filter
            created_by_filter))
  = Some
      (mk_select (truthy search)
         (where_columns status_filter assigned_to_filter created_by_filter))
  /\ map fst
       (snd (_list_tickets_query status_filter search assigned_to_filter
               created_by_filter))
     = ((if truthy search then ["search"] else [])
        ++ map column_name
             (where_columns status_filter assigned_to_filter
                created_by_filter))%list.
Proof.
  split; [apply query_parses|]. rewrite query_params.
  destruct status_filter as [[|? ?]|], search as [[|? ?]|],
    assigned_to_filter as [[|? ?]|], created_by_filter as [[|? ?]|];
    reflexivity.
Qed.
